(** * Vivint integration: a shallow embedding of the binary-sensor, hub and
    camera platforms, and the properties proved about them.

    Sources embedded:
    - [custom_components/vivint/binary_sensor.py]
    - [custom_components/vivint/hub.py]
    - [custom_components/vivint/camera.py]

    Layout: the vendor SDK's data ([Vivintpy]), then one module of
    definitions per source file, then the theorems. *)

From stdpp Require Import base option list gmap strings.
From Stdlib Require Import ZArith Lia DecimalString DecimalZ DecimalPos.

Open Scope Z_scope.

(** ** Python values shared by the three files *)

(** The exception classes that the three files name or can meet. *)
Inductive Exception :=
| VivintSkyApiMfaRequiredError
| VivintSkyApiAuthenticationError
| VivintSkyApiError
| ClientResponseError
| ClientConnectorError
| FileNotFoundError
| AttributeError
| OtherException (class_name : string).

#[global] Instance Exception_eq_dec : EqDecision Exception.
Proof. solve_decision. Defined.

(** The outcome of a call that may raise. *)
Inductive Result (A : Type) :=
| Return (value : A)
| Raise (ex : Exception).
Arguments Return {A} value.
Arguments Raise {A} ex.

(** Code that reads and writes object state and may raise: a state
    transformer that returns a [Result].  As in Python, what was assigned
    before an exception stays assigned. *)
Definition Py (S A : Type) : Type := S -> Result A * S.

Definition ret {S A} (value : A) : Py S A := fun s => (Return value, s).

Definition bind {S A B} (m : Py S A) (k : A -> Py S B) : Py S B :=
  fun s => match m s with
           | (Return value, s') => k value s'
           | (Raise ex, s') => (Raise ex, s')
           end.

Definition raise {S A} (ex : Exception) : Py S A := fun s => (Raise ex, s).

Definition get {S} : Py S S := fun s => (Return s, s).

Definition modify {S} (f : S -> S) : Py S unit := fun s => (Return tt, f s).

(** [try: body except <any> as ex: handler ex]. *)
Definition try_except {S A} (body : Py S A) (handler : Exception -> Py S A)
  : Py S A :=
  fun s => match body s with
           | (Return value, s') => (Return value, s')
           | (Raise ex, s') => handler ex s'
           end.

(** [try: body finally: return final]: the [return] in the [finally]
    clause replaces whatever [body] returned or raised. *)
Definition finally_return {S A B} (body : Py S A) (final : Py S B) : Py S B :=
  fun s => final (body s).2.

Declare Scope py_scope.
Delimit Scope py_scope with py.
Notation "x <- m ;; k" := (bind m (fun x => k))
  (at level 100, m at next level, right associativity) : py_scope.
Notation "m ;; k" := (bind m (fun _ => k))
  (at level 100, right associativity) : py_scope.

(** Python's [sub in s] on [str]: [sub] occurs in [s] as a contiguous
    run of characters. *)
Fixpoint str_in (sub s : string) : bool :=
  if String.prefix sub s then true
  else match s with
       | EmptyString => false
       | String _ rest => str_in sub rest
       end.

(** Truthiness of an optional string ([None] and [""] are falsy). *)
Definition truthy (v : option string) : bool :=
  match v with
  | Some s => negb (bool_decide (s = ""%string))
  | None => false
  end.

(** Python's [str] of an [int], as an f-string formats it: the decimal
    digits, after a minus sign when negative. *)
Definition str (z : Z) : string := NilEmpty.string_of_int (Z.to_int z).

(** The Python values that the attributes read here can hold. *)
Inductive Value :=
| VBool (b : bool)
| VInt (z : Z)
| VStr (s : string).

(** [sub] occurs in [s]: what [str_in] decides. *)
Definition occurs_in (sub s : string) : Prop :=
  exists before after, s = before +:+ sub +:+ after.

(** The character of the string ["-"]. *)
Definition dash : Ascii.ascii :=
  Ascii.Ascii true false true true false true false false.

(** Whether the character [c] occurs in [s]. *)
Fixpoint has_char (c : Ascii.ascii) (s : string) : bool :=
  match s with
  | EmptyString => false
  | String c' rest => bool_decide (c' = c) || has_char c rest
  end.

(** ** The vendor SDK's data (vivintpy), consumed as given *)

Module EquipmentType.
Inductive t := CONTACT | MOTION | FREEZE | WATER | TEMPERATURE | Other (value : Z).
#[global] Instance eq_dec : EqDecision t.
Proof. solve_decision. Defined.
End EquipmentType.

Module SensorType.
Inductive t :=
| EXIT_ENTRY_1 | PERIMETER | FIRE | FIRE_WITH_VERIFICATION | CARBON_MONOXIDE
| Other (value : Z).
#[global] Instance eq_dec : EqDecision t.
Proof. solve_decision. Defined.
End SensorType.

Module Vivintpy.

(** A device object as the platform code inspects it.  The two
    [isinstance_*] fields answer [isinstance(device, WirelessSensor)] and
    [isinstance(device, Camera)]; an attribute the object may lack is an
    [option], [None] meaning that [hasattr] is false. *)
Record VivintDevice := {
  id : Z;
  name : string;
  isinstance_WirelessSensor : bool;
  isinstance_Camera : bool;
  node_online : option bool;
  is_online : option bool;
  is_on : bool;
  equipment_type : EquipmentType.t;
  sensor_type : SensorType.t;
  equipment_code_name : string;
}.

Record AlarmPanel := { devices : list VivintDevice }.
Record System := { alarm_panels : list AlarmPanel }.

Definition hasattr {A} (attribute : option A) : bool :=
  match attribute with Some _ => true | None => false end.

End Vivintpy.

(** ** binary_sensor.py *)

Module BinarySensorDeviceClass.
Inductive t :=
| MOTION | COLD | MOISTURE | HEAT | GARAGE_DOOR | DOOR | SAFETY | WINDOW
| SMOKE | GAS | CONNECTIVITY.
End BinarySensorDeviceClass.

Module BinarySensor.
Import Vivintpy.

Definition PLATFORM_DOMAIN : string := "binary_sensor".

Record BinarySensorEntityDescription := {
  key : string;
  description_device_class : BinarySensorDeviceClass.t;
}.

Definition ENTITY_DESCRIPTION_MOTION : BinarySensorEntityDescription :=
  {| key := "motion"; description_device_class := BinarySensorDeviceClass.MOTION |}.

(** The three entity classes of the platform, as constructed. *)
Inductive Entity :=
| VivintBinarySensorEntity (device : VivintDevice)
| VivintCameraBinarySensorEntity
    (device : VivintDevice) (entity_description : BinarySensorEntityDescription)
| VivintOnlineBinarySensorEntity (device : VivintDevice) (online_key : string).

(** [VivintBinarySensorEntity.device_class]; [None] is Python's [None],
    which a function returns when it runs off its end. *)
Definition device_class (device : VivintDevice) : option BinarySensorDeviceClass.t :=
  let equipment_type := device.(equipment_type) in
  if bool_decide (equipment_type = EquipmentType.MOTION) then
    Some BinarySensorDeviceClass.MOTION
  else if bool_decide (equipment_type = EquipmentType.FREEZE) then
    Some BinarySensorDeviceClass.COLD
  else if bool_decide (equipment_type = EquipmentType.WATER) then
    Some BinarySensorDeviceClass.MOISTURE
  else if bool_decide (equipment_type = EquipmentType.TEMPERATURE) then
    Some BinarySensorDeviceClass.HEAT
  else if bool_decide (equipment_type = EquipmentType.CONTACT) then
    let sensor_type := device.(sensor_type) in
    if bool_decide (sensor_type = SensorType.EXIT_ENTRY_1) then
      Some (if str_in "TILT" device.(equipment_code_name)
            then BinarySensorDeviceClass.GARAGE_DOOR
            else BinarySensorDeviceClass.DOOR)
    else if bool_decide (sensor_type = SensorType.PERIMETER) then
      Some (if str_in "GLASS_BREAK" device.(equipment_code_name)
            then BinarySensorDeviceClass.SAFETY
            else BinarySensorDeviceClass.WINDOW)
    else if bool_decide
              (sensor_type ∈ [SensorType.FIRE; SensorType.FIRE_WITH_VERIFICATION]) then
      Some BinarySensorDeviceClass.SMOKE
    else if bool_decide (sensor_type = SensorType.CARBON_MONOXIDE) then
      Some BinarySensorDeviceClass.GAS
    else None
  else
    Some BinarySensorDeviceClass.SAFETY.

(** The body of the innermost loop of [async_setup_entry]: the
    [if]/[elif] chain that appends to [entities]. *)
Definition classify_device (entities : list Entity) (device : VivintDevice)
  : list Entity :=
  if device.(isinstance_WirelessSensor) then
    entities ++ [VivintBinarySensorEntity device]
  else if device.(isinstance_Camera) then
    entities ++ [VivintCameraBinarySensorEntity device ENTITY_DESCRIPTION_MOTION]
  else if hasattr device.(node_online) then
    entities ++ [VivintOnlineBinarySensorEntity device "node_online"]
  else if hasattr device.(is_online) then
    entities ++ [VivintOnlineBinarySensorEntity device "is_online"]
  else entities.

(** The three nested [for] loops, starting from [entities = []]. *)
Definition collect_entities (systems : list System) : list Entity :=
  foldl (fun entities system =>
    foldl (fun entities alarm_panel =>
      foldl classify_device entities alarm_panel.(devices))
      entities system.(alarm_panels))
    [] systems.

(** The devices in the order the loops visit them. *)
Definition traversal (systems : list System) : list VivintDevice :=
  system ← systems; alarm_panel ← system.(alarm_panels); alarm_panel.(devices).

(** A dispatcher target.  The only one this file connects is the closure
    [async_add_sensor], which captures the entry's [async_add_entities]. *)
Inductive Target := AsyncAddSensor (entry_id : string).

(** The part of the host that setup touches: the entities handed to
    [async_add_entities], tagged with the config entry that owns them, and
    the dispatcher's table from signal name to connected targets. *)
Record HomeAssistant := {
  platform_entities : list (string * Entity);
  dispatcher : gmap string (list Target);
}.

(** A config entry, with the signals whose connection it undoes on unload. *)
Record ConfigEntry := {
  entry_id : string;
  on_unload : list string;
}.

(** The entry's [async_add_entities].  Its second argument, which setup
    passes as [True], only asks the host to poll each entity once before
    adding it; polling is the host's business and is left out. *)
Definition async_add_entities (entry : string) (new_entities : list Entity)
    (hass : HomeAssistant) : HomeAssistant :=
  {| platform_entities :=
       hass.(platform_entities) ++ ((fun e => (entry, e)) <$> new_entities);
     dispatcher := hass.(dispatcher) |}.

Definition async_dispatcher_connect (signal : string) (target : Target)
    (hass : HomeAssistant) : HomeAssistant :=
  {| platform_entities := hass.(platform_entities);
     dispatcher :=
       <[signal := default [] (hass.(dispatcher) !! signal) ++ [target]]>
         hass.(dispatcher) |}.

(** The closure [async_add_sensor] of [async_setup_entry]. *)
Definition async_add_sensor (entry : string) (device : VivintDevice)
    (hass : HomeAssistant) : HomeAssistant :=
  let entities : list Entity := [] in
  let entities :=
    if device.(isinstance_WirelessSensor)
    then entities ++ [VivintBinarySensorEntity device]
    else entities in
  async_add_entities entry entities hass.

Definition call_target (target : Target) (device : VivintDevice)
    (hass : HomeAssistant) : HomeAssistant :=
  match target with
  | AsyncAddSensor entry => async_add_sensor entry device hass
  end.

(** The host's [async_dispatcher_send]: every target connected to the
    signal is called with the device, in connection order. *)
Definition async_dispatcher_send (signal : string) (device : VivintDevice)
    (hass : HomeAssistant) : HomeAssistant :=
  foldl (fun hass target => call_target target device hass)
        hass (default [] (hass.(dispatcher) !! signal)).

Section Setup.
(** [DOMAIN] comes from [const.py], which is not among the sources. *)
Variable DOMAIN : string.

Definition add_signal (entry : string) : string :=
  DOMAIN +:+ "_" +:+ entry +:+ "_add_" +:+ PLATFORM_DOMAIN.

(** [async_setup_entry], given the systems of the entry's hub. *)
Definition async_setup_entry (hass : HomeAssistant) (config_entry : ConfigEntry)
    (systems : list System) : HomeAssistant * ConfigEntry :=
  let entities := collect_entities systems in
  if bool_decide (entities = []) then (hass, config_entry)
  else
    let hass := async_add_entities config_entry.(entry_id) entities hass in
    let signal := add_signal config_entry.(entry_id) in
    let hass := async_dispatcher_connect signal
                  (AsyncAddSensor config_entry.(entry_id)) hass in
    (hass, {| entry_id := config_entry.(entry_id);
              on_unload := config_entry.(on_unload) ++ [signal] |}).

End Setup.

(** *** The camera motion sensor and its cool-down timer *)

Definition MOTION_STOPPED_SECONDS : Z := 30.

(** Instants and durations are counted in microseconds, the resolution of
    [datetime]; [timedelta seconds] is the duration of that many seconds. *)
Definition timedelta (seconds : Z) : Z := seconds * 1000000.

(** What the entity asks of the host's delayed-callback facility, and what
    the facility does, in order. *)
Inductive TimerCall :=
| CallLater (handle : nat) (due : Z)
| Cancel (handle : nat)
| Fire (handle : nat).

(** The host's clock and delayed callbacks.  [async_call_later] registers
    a callback under a fresh handle; the closure it returns cancels that
    handle.  [pending] lists the callbacks registered and neither fired
    nor cancelled, with the instant each is due. *)
Record EventLoop := {
  utcnow : Z;
  pending : list (nat * Z);
  next_handle : nat;
  timer_calls : list TimerCall;
}.

(** The fields of [VivintCameraBinarySensorEntity] that change, together
    with whether its motion listener is connected to the device and the
    states it has written to the host. *)
Record CameraMotion := {
  _last_motion_event : option Z;
  _motion_stopped_callback : option nat;
  listening : bool;
  written_states : list bool;
}.

Record MotionState := { hass_loop : EventLoop; self : CameraMotion }.

(** [VivintCameraBinarySensorEntity.__init__], at the instant [now]. *)
Definition init (now : Z) : MotionState :=
  {| hass_loop := {| utcnow := now; pending := []; next_handle := 0%nat;
                     timer_calls := [] |};
     self := {| _last_motion_event := None; _motion_stopped_callback := None;
                listening := false; written_states := [] |} |}.

(** The host's [async_call_later]: the callback is due [delay] seconds
    after the instant of the call.  The caller has read the clock, done
    some work and only then calls: [latency] is the time that passed in
    between, and the clock of the model keeps the caller's reading. *)
Definition async_call_later (delay : Z) (latency : N) (loop : EventLoop)
  : nat * EventLoop :=
  let handle := loop.(next_handle) in
  let due := loop.(utcnow) + Z.of_N latency + timedelta delay in
  (handle, {| utcnow := loop.(utcnow);
              pending := loop.(pending) ++ [(handle, due)];
              next_handle := S handle;
              timer_calls := loop.(timer_calls) ++ [CallLater handle due] |}).

(** Calling the closure that [async_call_later] returned. *)
Definition cancel_call_later (handle : nat) (loop : EventLoop) : EventLoop :=
  {| utcnow := loop.(utcnow);
     pending := filter (fun timer => timer.1 ≠ handle) loop.(pending);
     next_handle := loop.(next_handle);
     timer_calls := loop.(timer_calls) ++ [Cancel handle] |}.

(** [VivintCameraBinarySensorEntity.is_on]. *)
Definition is_on (s : MotionState) : bool :=
  match s.(self).(_last_motion_event) with
  | Some last_motion_event =>
      last_motion_event >=? s.(hass_loop).(utcnow) - timedelta 30
  | None => false
  end.

Definition async_write_ha_state (s : MotionState) : MotionState :=
  {| hass_loop := s.(hass_loop);
     self := {| _last_motion_event := s.(self).(_last_motion_event);
                _motion_stopped_callback := s.(self).(_motion_stopped_callback);
                listening := s.(self).(listening);
                written_states := s.(self).(written_states) ++ [is_on s] |} |}.

Definition set_motion (last : option Z) (callback : option nat)
    (s : MotionState) : MotionState :=
  {| hass_loop := s.(hass_loop);
     self := {| _last_motion_event := last;
                _motion_stopped_callback := callback;
                listening := s.(self).(listening);
                written_states := s.(self).(written_states) |} |}.

Definition set_listening (flag : bool) (s : MotionState) : MotionState :=
  {| hass_loop := s.(hass_loop);
     self := {| _last_motion_event := s.(self).(_last_motion_event);
                _motion_stopped_callback := s.(self).(_motion_stopped_callback);
                listening := flag;
                written_states := s.(self).(written_states) |} |}.

Definition async_cancel_motion_stopped_callback (s : MotionState) : MotionState :=
  match s.(self).(_motion_stopped_callback) with
  | Some handle =>
      let s := {| hass_loop := cancel_call_later handle s.(hass_loop);
                  self := s.(self) |} in
      set_motion s.(self).(_last_motion_event) None s
  | None => s
  end.

(** [_motion_callback].  The instant it records as the last motion is
    read before the state is written and the cool-down callback
    registered; [latency] is the time from that reading to the
    registration, so that the callback is due [latency] plus thirty
    seconds after the recorded instant. *)
Definition _motion_callback (latency : N) (s : MotionState) : MotionState :=
  let s := async_cancel_motion_stopped_callback s in
  let s := set_motion (Some s.(hass_loop).(utcnow))
                      s.(self).(_motion_stopped_callback) s in
  let s := async_write_ha_state s in
  let '(handle, loop) :=
    async_call_later MOTION_STOPPED_SECONDS latency s.(hass_loop) in
  set_motion s.(self).(_last_motion_event) (Some handle)
             {| hass_loop := loop; self := s.(self) |}.

Definition async_motion_stopped_callback (s : MotionState) : MotionState :=
  let s := set_motion s.(self).(_last_motion_event) None s in
  let s := set_motion None s.(self).(_motion_stopped_callback) s in
  async_write_ha_state s.

(** The host runs one delayed callback: if it is still pending, the clock
    stands at its due instant (or later), the registration is consumed and
    the callback, [async_motion_stopped_callback], runs. *)
Definition fire (s : MotionState) (timer : nat * Z) : MotionState :=
  if bool_decide (timer ∈ s.(hass_loop).(pending)) then
    let loop := s.(hass_loop) in
    async_motion_stopped_callback
      {| hass_loop := {| utcnow := Z.max loop.(utcnow) timer.2;
                         pending := filter (fun other => other.1 ≠ timer.1)
                                           loop.(pending);
                         next_handle := loop.(next_handle);
                         timer_calls := loop.(timer_calls) ++ [Fire timer.1] |};
         self := s.(self) |}
  else s.

(** The host lets time pass until the instant [target]: the callbacks due
    by then run, in registration order, and the clock then reads [target]. *)
Definition run_until (target : Z) (s : MotionState) : MotionState :=
  let due := filter (fun timer => timer.2 ≤ target) s.(hass_loop).(pending) in
  let s := foldl fire s due in
  {| hass_loop := {| utcnow := Z.max s.(hass_loop).(utcnow) target;
                     pending := s.(hass_loop).(pending);
                     next_handle := s.(hass_loop).(next_handle);
                     timer_calls := s.(hass_loop).(timer_calls) |};
     self := s.(self) |}.

(** What can happen to the entity.  [AddedToHass] and [WillRemove] are the
    host calling [async_added_to_hass] and [async_will_remove_from_hass]
    (followed by the removal callbacks, which disconnect the listener);
    [MotionDetected latency] is the device emitting [MOTION_DETECTED], at
    the instant the handler reads the clock, the handler then taking
    [latency] microseconds to reach the registration of its callback;
    [Elapse dt] is [dt] microseconds passing. *)
Inductive Event :=
| AddedToHass
| MotionDetected (latency : N)
| Elapse (dt : N)
| WillRemove.

Definition step (s : MotionState) (event : Event) : MotionState :=
  match event with
  | AddedToHass => set_listening true s
  | MotionDetected latency =>
      if s.(self).(listening) then _motion_callback latency s else s
  | Elapse dt => run_until (s.(hass_loop).(utcnow) + Z.of_N dt) s
  | WillRemove => set_listening false (async_cancel_motion_stopped_callback s)
  end.

Definition run (events : list Event) (s : MotionState) : MotionState :=
  foldl step s events.

(** The total of a list of waits. *)
Definition total_wait (waits : list N) : N := foldr N.add 0%N waits.

(** What holds of every state the entity can reach: while a handle is
    held, the callback it names is the only one pending, it is due thirty
    seconds or more after the recorded motion and that instant is still
    ahead; when none is held, nothing is pending.  A recorded motion is
    never in the future. *)
Definition timer_invariant (s : MotionState) : Prop :=
  match s.(self).(_motion_stopped_callback) with
  | Some handle =>
      exists last due,
        s.(self).(_last_motion_event) = Some last
        /\ s.(hass_loop).(pending) = [(handle, due)]
        /\ last + timedelta MOTION_STOPPED_SECONDS <= due
        /\ s.(hass_loop).(utcnow) < due
  | None => s.(hass_loop).(pending) = []
  end
  /\ forall last, s.(self).(_last_motion_event) = Some last ->
                  last <= s.(hass_loop).(utcnow).

(** The entity saw motion at the instant [at_time], registered its
    callback for the instant [due], and has seen nothing but the passing
    of time since: either the cool-down is still running, or its callback
    has fired and cleared the record. *)
Definition quiet_since (at_time due : Z) (handle : nat) (s : MotionState)
  : Prop :=
  at_time <= s.(hass_loop).(utcnow)
  /\ ((s.(hass_loop).(utcnow) < due
       /\ s.(self).(_last_motion_event) = Some at_time
       /\ s.(self).(_motion_stopped_callback) = Some handle
       /\ s.(hass_loop).(pending) = [(handle, due)])
      \/ (due <= s.(hass_loop).(utcnow)
          /\ s.(self).(_last_motion_event) = None
          /\ s.(self).(_motion_stopped_callback) = None
          /\ s.(hass_loop).(pending) = [])).

(** *** Identity and state of the entities *)

Definition entity_device (entity : Entity) : VivintDevice :=
  match entity with
  | VivintBinarySensorEntity device => device
  | VivintCameraBinarySensorEntity device _ => device
  | VivintOnlineBinarySensorEntity device _ => device
  end.

(** [getattr(device, attribute)] for the boolean attributes the model
    carries; an attribute the object lacks raises [AttributeError]. *)
Definition getattr (device : VivintDevice) (attribute : string) : Result Value :=
  if bool_decide (attribute = "node_online"%string) then
    match device.(node_online) with
    | Some flag => Return (VBool flag)
    | None => Raise AttributeError
    end
  else if bool_decide (attribute = "is_online"%string) then
    match device.(is_online) with
    | Some flag => Return (VBool flag)
    | None => Raise AttributeError
    end
  else if bool_decide (attribute = "is_on"%string) then
    Return (VBool device.(Vivintpy.is_on))
  else if bool_decide (attribute = "id"%string) then
    Return (VInt device.(id))
  else if bool_decide (attribute = "name"%string) then
    Return (VStr device.(name))
  else Raise AttributeError.

(** [VivintBinarySensorEntity.is_on]. *)
Definition sensor_is_on (device : VivintDevice) : bool :=
  device.(Vivintpy.is_on).

(** [VivintOnlineBinarySensorEntity.is_on]. *)
Definition online_is_on (device : VivintDevice) (online_key : string)
  : Result Value :=
  getattr device online_key.

(** [VivintCameraBinarySensorEntity.name]. *)
Definition camera_sensor_name (device : VivintDevice) : string :=
  device.(name) +:+ " Motion".

(** The devices for which the loop of [async_setup_entry] has a rule. *)
Definition has_rule (device : VivintDevice) : bool :=
  device.(isinstance_WirelessSensor) || device.(isinstance_Camera)
  || hasattr device.(node_online) || hasattr device.(is_online).

Section Identity.
(** [device.alarm_panel.id], which the vendor's object carries. *)
Variable alarm_panel_id : VivintDevice -> Z.

(** The [unique_id] property of the three entity classes. *)
Definition unique_id (entity : Entity) : string :=
  match entity with
  | VivintBinarySensorEntity device =>
      str (alarm_panel_id device) +:+ "-" +:+ str device.(id)
  | VivintCameraBinarySensorEntity device _ =>
      str (alarm_panel_id device) +:+ "-" +:+ str device.(id)
  | VivintOnlineBinarySensorEntity device _ =>
      str (alarm_panel_id device) +:+ "-" +:+ str device.(id) +:+ "-online"
  end.

(** Panel and device ids are not negative. *)
Definition well_numbered (device : VivintDevice) : Prop :=
  0 <= alarm_panel_id device /\ 0 <= device.(id).

End Identity.

(** *** Runs of motion events *)

(** A motion event, then after each gap another one, each with the
    latency of its handler. *)
Definition burst (latency : N) (later : list (N * N)) : list Event :=
  MotionDetected latency
  :: (next ← later; [Elapse next.1; MotionDetected next.2]).

Definition is_fire (c : TimerCall) : bool :=
  match c with Fire _ => true | _ => false end.


(** The state right after a motion event was handled: the motion is on
    record at the present instant and its callback alone is pending, due
    thirty seconds or more from now. *)
Definition just_moved (s : MotionState) : Prop :=
  s.(self).(listening) = true
  /\ s.(self).(_last_motion_event) = Some s.(hass_loop).(utcnow)
  /\ exists handle due,
       s.(self).(_motion_stopped_callback) = Some handle
       /\ s.(hass_loop).(pending) = [(handle, due)]
       /\ s.(hass_loop).(utcnow) + timedelta MOTION_STOPPED_SECONDS <= due.

(** The state of an entity that was removed and not added again. *)
Definition dormant (s : MotionState) : Prop :=
  s.(self).(listening) = false
  /\ s.(self).(_motion_stopped_callback) = None
  /\ s.(hass_loop).(pending) = [].

End BinarySensor.

(** ** hub.py *)

Module Hub.

(** The cookies of an HTTP session, by name. *)
Definition CookieJar : Type := list (string * string).

(** The vendor SDK's [Account], as far as the hub looks at it. *)
Record Account := { connected : bool }.

Record ClientSession := { closed : bool; cookie_jar : CookieJar }.

(** [issubclass raised handled], for the exception classes at hand:
    vivintpy derives the MFA error from the authentication error and the
    authentication error from [VivintSkyApiError]. *)
Definition issubclass (raised handled : Exception) : bool :=
  bool_decide (raised = handled)
  || match raised, handled with
     | VivintSkyApiMfaRequiredError, VivintSkyApiAuthenticationError => true
     | VivintSkyApiMfaRequiredError, VivintSkyApiError => true
     | VivintSkyApiAuthenticationError, VivintSkyApiError => true
     | _, _ => false
     end.

(** What the hub does to the world outside it, in order. *)
Inductive Effect :=
| AccountConnect
| AccountDisconnect
| AccountVerifyMfa
| SessionClose
| OsRemove
| CookieJarSave
| UndoListener (listener : nat)
| LogDebug (message : string)
| LogError (message : string).

#[global] Instance Effect_eq_dec : EqDecision Effect.
Proof. solve_decision. Defined.

(** The attributes of a [VivintHub], the content of its cache file on disk
    ([None] when the file does not exist) and the effects so far. *)
Record VivintHub := {
  __undo_listener : option nat;
  account : option Account;
  logged_in : bool;
  session : option ClientSession;
  cache_file : option CookieJar;
  effects : list Effect;
}.

(** [VivintHub.__init__]. *)
Definition init (undo_listener : option nat) (on_disk : option CookieJar)
  : VivintHub :=
  {| __undo_listener := undo_listener; account := None; logged_in := false;
     session := None; cache_file := on_disk; effects := [] |}.

Definition set_logged_in (flag : bool) (self : VivintHub) : VivintHub :=
  {| __undo_listener := self.(__undo_listener); account := self.(account);
     logged_in := flag; session := self.(session);
     cache_file := self.(cache_file); effects := self.(effects) |}.

Definition set_account (value : option Account) (self : VivintHub) : VivintHub :=
  {| __undo_listener := self.(__undo_listener); account := value;
     logged_in := self.(logged_in); session := self.(session);
     cache_file := self.(cache_file); effects := self.(effects) |}.

Definition set_session (value : option ClientSession) (self : VivintHub)
  : VivintHub :=
  {| __undo_listener := self.(__undo_listener); account := self.(account);
     logged_in := self.(logged_in); session := value;
     cache_file := self.(cache_file); effects := self.(effects) |}.

Definition set_cache_file (content : option CookieJar) (self : VivintHub)
  : VivintHub :=
  {| __undo_listener := self.(__undo_listener); account := self.(account);
     logged_in := self.(logged_in); session := self.(session);
     cache_file := content; effects := self.(effects) |}.

Definition set_undo_listener (value : option nat) (self : VivintHub) : VivintHub :=
  {| __undo_listener := value; account := self.(account);
     logged_in := self.(logged_in); session := self.(session);
     cache_file := self.(cache_file); effects := self.(effects) |}.

Definition effect (e : Effect) : Py VivintHub unit :=
  modify (fun self =>
    {| __undo_listener := self.(__undo_listener); account := self.(account);
       logged_in := self.(logged_in); session := self.(session);
       cache_file := self.(cache_file); effects := self.(effects) ++ [e] |}).

(** What one call of the SDK's [Account.connect] or [Account.verify_mfa]
    turns out to do: whether it raises, whether the account is connected
    afterwards, and the cookies the session holds afterwards. *)
Record SdkOutcome := {
  raises : option Exception;
  connected_after : bool;
  cookies_after : CookieJar;
}.

Open Scope py_scope.

(** An SDK call on [self.account], which shares the hub's session. *)
Definition sdk_call (call : Effect) (outcome : SdkOutcome) : Py VivintHub unit :=
  self <- get;;
  match self.(account), self.(session) with
  | Some _, Some http =>
      effect call;;
      modify (set_account (Some {| connected := outcome.(connected_after) |}));;
      modify (set_session (Some {| closed := http.(closed);
                                   cookie_jar := outcome.(cookies_after) |}));;
      match outcome.(raises) with
      | Some ex => raise ex
      | None => ret tt
      end
  | _, _ => raise AttributeError
  end.

(** [VivintHub.save_session]; [save_raises] is the exception, if any, with
    which writing the file fails.  The session reached through the account
    is the one the hub gave it. *)
Definition save_session (save_raises : option Exception) : Py VivintHub bool :=
  self <- get;;
  match self.(account), self.(session) with
  | Some _, Some http =>
      effect CookieJarSave;;
      match save_raises with
      | Some ex => raise ex
      | None =>
          modify (set_cache_file (Some http.(cookie_jar)));;
          modify (set_logged_in true);;
          self <- get;;
          ret self.(logged_in)
      end
  | _, _ => raise AttributeError
  end.

(** [VivintHub.login]. *)
Definition login (connect : SdkOutcome) (save_raises : option Exception)
  : Py VivintHub bool :=
  modify (set_logged_in false);;
  self <- get;;
  abs_cookie_jar <-
    match self.(cache_file) with
    | Some saved => ret saved
    | None => effect (LogDebug "No previous session found");; ret []
    end;;
  modify (set_session (Some {| closed := false; cookie_jar := abs_cookie_jar |}));;
  modify (set_account (Some {| connected := false |}));;
  try_except
    (sdk_call AccountConnect connect;;
     save_session save_raises)
    (fun ex =>
       if issubclass ex VivintSkyApiMfaRequiredError then raise ex
       else if issubclass ex VivintSkyApiAuthenticationError then
         effect (LogError "Invalid credentials");; raise ex
       else if issubclass ex VivintSkyApiError
               || issubclass ex ClientResponseError
               || issubclass ex ClientConnectorError then
         effect (LogError "Unable to connect to the Vivint API");; raise ex
       else raise ex).

(** [VivintHub.remove_cache_file]: [os.remove] raises when the file does
    not exist. *)
Definition remove_cache_file : Py VivintHub unit :=
  self <- get;;
  effect OsRemove;;
  match self.(cache_file) with
  | Some _ => modify (set_cache_file None)
  | None => raise FileNotFoundError
  end.

(** [VivintHub.disconnect]. *)
Definition disconnect (remove_cache : bool) : Py VivintHub unit :=
  self <- get;;
  match self.(account) with
  | None => raise AttributeError
  | Some account =>
      if account.(connected) then
        effect AccountDisconnect;;
        modify (set_account (Some {| connected := false |}))
      else ret tt
  end;;
  self <- get;;
  match self.(session) with
  | None => raise AttributeError
  | Some http =>
      if negb http.(closed) then
        effect SessionClose;;
        modify (set_session (Some {| closed := true;
                                     cookie_jar := http.(cookie_jar) |}))
      else ret tt
  end;;
  (if remove_cache then remove_cache_file else ret tt);;
  self <- get;;
  match self.(__undo_listener) with
  | Some listener =>
      effect (UndoListener listener);;
      modify (set_undo_listener None)
  | None => ret tt
  end.

(** [VivintHub.verify_mfa]. *)
Definition verify_mfa (verify : SdkOutcome) (save_raises : option Exception)
  : Py VivintHub bool :=
  try_except
    (sdk_call AccountVerifyMfa verify;;
     save_session save_raises)
    (fun ex => raise ex).

(** A run of [disconnect] calls, one per flag; the results, in order, and
    the hub afterwards. *)
Fixpoint disconnect_all (flags : list bool) (self : VivintHub)
  : list (Result unit) * VivintHub :=
  match flags with
  | [] => ([], self)
  | remove_cache :: rest =>
      let '(result, self) := disconnect remove_cache self in
      let '(results, self) := disconnect_all rest self in
      (result :: results, self)
  end.

(** How often an effect of a given kind occurs. *)
Definition count (kind : Effect -> bool) (log : list Effect) : nat :=
  length (List.filter kind log).

Definition is_teardown (e : Effect) : bool :=
  match e with UndoListener _ => true | _ => false end.

Definition is_account_disconnect (e : Effect) : bool :=
  bool_decide (e = AccountDisconnect).

Definition is_session_close (e : Effect) : bool :=
  bool_decide (e = SessionClose).

(** The hub has been through [login]: it has an account and a session. *)
Definition has_logged_in (self : VivintHub) : Prop :=
  is_Some self.(account) /\ is_Some self.(session).

(** A hub holds the attribute values that [bool] tests read. *)
Definition is_connected (self : VivintHub) : bool :=
  match self.(account) with Some acc => acc.(connected) | None => false end.

Definition is_open (self : VivintHub) : bool :=
  match self.(session) with Some http => negb http.(closed) | None => false end.

Close Scope py_scope.

(** *** The two halves of [login] *)

Open Scope py_scope.

(** The first statements of [login]: a new cookie jar into which the
    cache file is loaded when that works; when it does not, the jar stays
    empty and a debug line is logged. *)
Definition load_previous_session : Py VivintHub CookieJar :=
  self <- get;;
  match self.(cache_file) with
  | Some saved => ret saved
  | None => effect (LogDebug "No previous session found");; ret []
  end.

(** The rest of [login], from the creation of the session on. *)
Definition connect_and_save (connect : SdkOutcome)
    (save_raises : option Exception) (abs_cookie_jar : CookieJar)
  : Py VivintHub bool :=
  modify (set_session (Some {| closed := false; cookie_jar := abs_cookie_jar |}));;
  modify (set_account (Some {| connected := false |}));;
  try_except
    (sdk_call AccountConnect connect;;
     save_session save_raises)
    (fun ex =>
       if issubclass ex VivintSkyApiMfaRequiredError then raise ex
       else if issubclass ex VivintSkyApiAuthenticationError then
         effect (LogError "Invalid credentials");; raise ex
       else if issubclass ex VivintSkyApiError
               || issubclass ex ClientResponseError
               || issubclass ex ClientConnectorError then
         effect (LogError "Unable to connect to the Vivint API");; raise ex
       else raise ex).

Close Scope py_scope.

(** *** Device registry identifiers *)

(** A device as [get_device_id] and the entity constructors read it.  The
    parent and the alarm panel are devices themselves; [None] stands for a
    reference that is not there. *)
#[warnings="-register-all"] Inductive Device := {
  device_id : Z;
  panel_id : Z;
  device_name : option string;
  type_name : string;
  is_subdevice : bool;
  parent : option Device;
  manufacturer : option string;
  model : option string;
  software_version : option string;
  isinstance_AlarmPanel : bool;
  alarm_panel : option Device;
}.

Record DeviceInfo := {
  default_manufacturer : string;
  identifiers : list (string * string);
  info_name : string;
  info_manufacturer : option string;
  info_model : option string;
  sw_version : option string;
  via_device : option (string * string);
}.

Section Registry.
(** [DOMAIN] comes from [const.py], which is not among the sources. *)
Variable DOMAIN : string.

(** [get_device_id]. *)
Definition get_device_id (device : Device) : Result (string * string) :=
  let owner :=
    if device.(is_subdevice) then
      match device.(parent) with
      | Some above => Return above.(device_id)
      | None => Raise AttributeError
      end
    else Return device.(device_id) in
  match owner with
  | Return number => Return (DOMAIN, str device.(panel_id) +:+ "-" +:+ str number)
  | Raise ex => Raise ex
  end.

(** The device information that [VivintEntity.__init__] computes. *)
Definition entity_device_info (entity_device : Device) : Result DeviceInfo :=
  let resolved :=
    if entity_device.(is_subdevice) then entity_device.(parent)
    else Some entity_device in
  match resolved with
  | None => Raise AttributeError
  | Some device =>
      match get_device_id device with
      | Raise ex => Raise ex
      | Return identifier =>
          let shown :=
            if truthy device.(device_name)
            then default ""%string device.(device_name)
            else device.(type_name) in
          let via :=
            if device.(isinstance_AlarmPanel) then Return None
            else match device.(alarm_panel) with
                 | None => Raise AttributeError
                 | Some panel =>
                     match get_device_id panel with
                     | Return above => Return (Some above)
                     | Raise ex => Raise ex
                     end
                 end in
          match via with
          | Raise ex => Raise ex
          | Return via =>
              Return {| default_manufacturer := "Vivint";
                        identifiers := [identifier];
                        info_name := shown;
                        info_manufacturer := device.(manufacturer);
                        info_model := device.(model);
                        sw_version := device.(software_version);
                        via_device := via |}
          end
      end
  end.

End Registry.

(** The [_attr_unique_id] that [VivintBaseEntity.__init__] computes from
    [device.alarm_panel.id], [device.id] and [entity_description.key]. *)
Definition base_unique_id (alarm_panel_id device_id : Z) (key : string)
  : string :=
  str alarm_panel_id +:+ "-" +:+ str device_id +:+ "-" +:+ key.

(** A device that is not a sub-device, with ids that are not negative. *)
Definition top_level (device : Device) : Prop :=
  device.(is_subdevice) = false
  /\ 0 <= device.(panel_id) /\ 0 <= device.(device_id).

End Hub.

(** ** camera.py *)

Module Camera.

(** Modelled from the spec: the three values of the [rtsp_stream] option,
    whose constants [const.py] defines ([const.py] is not among the
    sources): [direct], [internal], [external]. *)
Inductive RtspStream :=
| RTSP_STREAM_DIRECT
| RTSP_STREAM_INTERNAL
| RTSP_STREAM_EXTERNAL.

#[global] Instance RtspStream_eq_dec : EqDecision RtspStream.
Proof. solve_decision. Defined.

(** A captured frame, as [bytes]. *)
Definition Image : Type := list Byte.byte.

(** The calls the entity makes outside itself. *)
Inductive Call :=
| GetDirectRtspUrl (hd : bool)
| GetRtspUrl (internal hd : bool)
| AsyncGetImage (input_source : option string)
| LogDebug (message : string).

#[global] Instance Call_eq_dec : EqDecision Call.
Proof. solve_decision. Defined.

(** What those calls answer.  The first argument is the number of calls
    made before this one, so that an answer may change from one call to
    the next. *)
Record Environment := {
  get_direct_rtsp_url : nat -> bool -> Result (option string);
  get_rtsp_url : nat -> bool -> bool -> Result (option string);
  async_get_image : nat -> option string -> Result (option Image);
}.

(** The private attributes of a [VivintCam], its device's name and the
    calls made so far. *)
Record VivintCam := {
  name : string;
  __hd_stream : bool;
  __rtsp_stream : RtspStream;
  __stream_source : option string;
  __last_image : option Image;
  calls : list Call;
}.

(** [VivintCam.__init__]. *)
Definition init (device_name : string) (hd_stream : bool)
    (rtsp_stream : RtspStream) : VivintCam :=
  {| name := device_name; __hd_stream := hd_stream;
     __rtsp_stream := rtsp_stream; __stream_source := None;
     __last_image := None; calls := [] |}.

Definition set_stream_source (value : option string) (self : VivintCam)
  : VivintCam :=
  {| name := self.(name); __hd_stream := self.(__hd_stream);
     __rtsp_stream := self.(__rtsp_stream); __stream_source := value;
     __last_image := self.(__last_image); calls := self.(calls) |}.

Definition set_last_image (value : option Image) (self : VivintCam)
  : VivintCam :=
  {| name := self.(name); __hd_stream := self.(__hd_stream);
     __rtsp_stream := self.(__rtsp_stream);
     __stream_source := self.(__stream_source);
     __last_image := value; calls := self.(calls) |}.

(** Make a call: it is recorded, and its answer is returned or raised. *)
Definition call {A} (what : Call) (answer : nat -> Result A) : Py VivintCam A :=
  fun self =>
    (answer (length self.(calls)),
     {| name := self.(name); __hd_stream := self.(__hd_stream);
        __rtsp_stream := self.(__rtsp_stream);
        __stream_source := self.(__stream_source);
        __last_image := self.(__last_image);
        calls := self.(calls) ++ [what] |}).

Open Scope py_scope.

Section WithEnvironment.
Variable env : Environment.

(** [VivintCam.stream_source]. *)
Definition stream_source : Py VivintCam (option string) :=
  self <- get;;
  (if negb (truthy self.(__stream_source)) then
     direct <-
       (if bool_decide (self.(__rtsp_stream) = RTSP_STREAM_DIRECT) then
          call (GetDirectRtspUrl self.(__hd_stream))
               (fun n => env.(get_direct_rtsp_url) n self.(__hd_stream))
        else ret None);;
     source <-
       (if truthy direct then ret direct
        else
          let internal :=
            bool_decide (self.(__rtsp_stream) ≠ RTSP_STREAM_EXTERNAL) in
          call (GetRtspUrl internal self.(__hd_stream))
               (fun n => env.(get_rtsp_url) n internal self.(__hd_stream)));;
     modify (set_stream_source source)
   else ret tt);;
  self <- get;;
  ret self.(__stream_source).

(** [VivintCam.async_camera_image]. *)
Definition async_camera_image : Py VivintCam (option Image) :=
  finally_return
    (try_except
       (input_source <- stream_source;;
        image <- call (AsyncGetImage input_source)
                      (fun n => env.(async_get_image) n input_source);;
        modify (set_last_image image))
       (fun _ =>
          self <- get;;
          call (LogDebug ("Could not retrieve latest image for " +:+ self.(name)))
               (fun _ => Return tt)))
    (self <- get;; ret self.(__last_image)).

(** A run of [n] calls of [async_camera_image]: the results, in order, and
    the entity afterwards. *)
Fixpoint camera_images (n : nat) (self : VivintCam)
  : list (Result (option Image)) * VivintCam :=
  match n with
  | O => ([], self)
  | S n =>
      let '(result, self) := async_camera_image self in
      let '(results, self) := camera_images n self in
      (result :: results, self)
  end.

End WithEnvironment.

Close Scope py_scope.

(** *** Setting up the camera platform *)

(** The options of the config entry; [None] is a key that is not set. *)
Record Options := {
  CONF_HD_STREAM : option bool;
  CONF_RTSP_STREAM : option RtspStream;
  CONF_RTSP_URL_LOGGING : option bool;
}.

(** What setup does outside itself: the URLs it fetches from devices, the
    lines it logs (a device name with the six URLs) and the entities it
    hands to [async_add_entities]. *)
Record Platform := {
  fetches : list (Vivintpy.VivintDevice * Call);
  info_lines : list (string * list (option string));
  added : list (Vivintpy.VivintDevice * VivintCam);
}.

(** The six URL requests of [log_rtsp_urls], in the order it makes them. *)
Definition six_fetches (device : Vivintpy.VivintDevice)
  : list (Vivintpy.VivintDevice * Call) :=
  [(device, GetDirectRtspUrl true); (device, GetDirectRtspUrl false);
   (device, GetRtspUrl true true); (device, GetRtspUrl true false);
   (device, GetRtspUrl false true); (device, GetRtspUrl false false)].

(** A loop [for item in items: acc = body acc item] whose body may raise. *)
Fixpoint for_each {S A B} (items : list A) (body : B -> A -> Py S B) (acc : B)
  : Py S B :=
  match items with
  | [] => ret acc
  | item :: rest => bind (body acc item) (for_each rest body)
  end.

Open Scope py_scope.

Section PlatformSetup.
(** [type(device) is VivintCamera], which the vendor's object decides, the
    answers of each device, and the defaults of [const.py], which is not
    among the sources. *)
Variable type_is_VivintCamera : Vivintpy.VivintDevice -> bool.
Variable urls : Vivintpy.VivintDevice -> Environment.
Variable DEFAULT_HD_STREAM : bool.
Variable DEFAULT_RTSP_STREAM : RtspStream.
Variable DEFAULT_RTSP_URL_LOGGING : bool.

Definition fetch {A} (device : Vivintpy.VivintDevice) (what : Call)
    (answer : nat -> Result A) : Py Platform A :=
  fun platform =>
    (answer (length platform.(fetches)),
     {| fetches := platform.(fetches) ++ [(device, what)];
        info_lines := platform.(info_lines);
        added := platform.(added) |}).

Definition log_info (line : string * list (option string)) : Py Platform unit :=
  modify (fun platform =>
    {| fetches := platform.(fetches);
       info_lines := platform.(info_lines) ++ [line];
       added := platform.(added) |}).

(** [log_rtsp_urls]. *)
Definition log_rtsp_urls (device : Vivintpy.VivintDevice) : Py Platform unit :=
  direct_hd <- fetch device (GetDirectRtspUrl true)
                 (fun n => (urls device).(get_direct_rtsp_url) n true);;
  direct_sd <- fetch device (GetDirectRtspUrl false)
                 (fun n => (urls device).(get_direct_rtsp_url) n false);;
  internal_hd <- fetch device (GetRtspUrl true true)
                   (fun n => (urls device).(get_rtsp_url) n true true);;
  internal_sd <- fetch device (GetRtspUrl true false)
                   (fun n => (urls device).(get_rtsp_url) n true false);;
  external_hd <- fetch device (GetRtspUrl false true)
                   (fun n => (urls device).(get_rtsp_url) n false true);;
  external_sd <- fetch device (GetRtspUrl false false)
                   (fun n => (urls device).(get_rtsp_url) n false false);;
  log_info (device.(Vivintpy.name),
            [direct_hd; direct_sd; internal_hd; internal_sd;
             external_hd; external_sd]).

(** The body of the innermost loop of the camera's [async_setup_entry]. *)
Definition setup_device (hd_stream : bool) (rtsp_stream : RtspStream)
    (rtsp_url_logging : bool)
    (entities : list (Vivintpy.VivintDevice * VivintCam))
    (device : Vivintpy.VivintDevice)
  : Py Platform (list (Vivintpy.VivintDevice * VivintCam)) :=
  if type_is_VivintCamera device then
    (if rtsp_url_logging then log_rtsp_urls device else ret tt);;
    ret (entities
         ++ [(device, init device.(Vivintpy.name) hd_stream rtsp_stream)])
  else ret entities.

(** The camera platform's [async_setup_entry]. *)
Definition async_setup_entry (options : Options)
    (systems : list Vivintpy.System) : Py Platform unit :=
  let hd_stream := default DEFAULT_HD_STREAM options.(CONF_HD_STREAM) in
  let rtsp_stream := default DEFAULT_RTSP_STREAM options.(CONF_RTSP_STREAM) in
  let rtsp_url_logging :=
    default DEFAULT_RTSP_URL_LOGGING options.(CONF_RTSP_URL_LOGGING) in
  entities <-
    for_each systems (fun entities system =>
      for_each system.(Vivintpy.alarm_panels) (fun entities alarm_panel =>
        for_each alarm_panel.(Vivintpy.devices)
          (setup_device hd_stream rtsp_stream rtsp_url_logging) entities)
        entities) [];;
  if bool_decide (entities = []) then ret tt
  else
    modify (fun platform =>
      {| fetches := platform.(fetches);
         info_lines := platform.(info_lines);
         added := platform.(added) ++ entities |}).

(** The cameras of an installation, as setup configures them. *)
Definition cameras (options : Options) (systems : list Vivintpy.System)
  : list (Vivintpy.VivintDevice * VivintCam) :=
  (fun device =>
     (device,
      init device.(Vivintpy.name)
        (default DEFAULT_HD_STREAM options.(CONF_HD_STREAM))
        (default DEFAULT_RTSP_STREAM options.(CONF_RTSP_STREAM))))
    <$> filter (fun device => type_is_VivintCamera device = true)
               (BinarySensor.traversal systems).

(** The same for any list of devices and any configuration. *)
Definition cams_of (hd_stream : bool) (rtsp_stream : RtspStream)
    (devices : list Vivintpy.VivintDevice)
  : list (Vivintpy.VivintDevice * VivintCam) :=
  (fun device => (device, init device.(Vivintpy.name) hd_stream rtsp_stream))
    <$> filter (fun device => type_is_VivintCamera device = true) devices.

(** Every URL request returns. *)
Definition fetches_return : Prop :=
  (forall device n hd,
     exists url, (urls device).(get_direct_rtsp_url) n hd = Return url)
  /\ (forall device n internal hd,
        exists url, (urls device).(get_rtsp_url) n internal hd = Return url).

End PlatformSetup.

Close Scope py_scope.

(** *** Calls of a run *)

Definition is_url_fetch (c : Call) : bool :=
  match c with
  | GetDirectRtspUrl _ | GetRtspUrl _ _ => true
  | _ => false
  end.

Definition is_capture (c : Call) : bool :=
  match c with AsyncGetImage _ => true | _ => false end.

(** The debug line of [async_camera_image]. *)
Definition could_not_retrieve (self : VivintCam) : Call :=
  LogDebug ("Could not retrieve latest image for " +:+ self.(name)).

End Camera.

(** ** Concrete devices, hubs and cameras *)

Module Examples.
Import Vivintpy.

Definition tilt_sensor : VivintDevice :=
  {| id := 12; name := "Garage Door";
     isinstance_WirelessSensor := true; isinstance_Camera := false;
     node_online := None; is_online := None; is_on := false;
     equipment_type := EquipmentType.CONTACT;
     sensor_type := SensorType.EXIT_ENTRY_1;
     equipment_code_name := "TILT_SENSOR_2GIG_345" |}.

Definition door_sensor : VivintDevice :=
  {| id := 13; name := "Front Door";
     isinstance_WirelessSensor := true; isinstance_Camera := false;
     node_online := None; is_online := None; is_on := false;
     equipment_type := EquipmentType.CONTACT;
     sensor_type := SensorType.EXIT_ENTRY_1;
     equipment_code_name := "DW10_THIN_DOOR_WINDOW" |}.

(** A contact sensor whose sensor type is none of the listed ones. *)
Definition interior_sensor : VivintDevice :=
  {| id := 14; name := "Hallway";
     isinstance_WirelessSensor := true; isinstance_Camera := false;
     node_online := None; is_online := None; is_on := false;
     equipment_type := EquipmentType.CONTACT;
     sensor_type := SensorType.Other 4;
     equipment_code_name := "DW11_THIN_DOOR_WINDOW" |}.

(** A sensor of an equipment type the function does not name. *)
Definition panic_button : VivintDevice :=
  {| id := 15; name := "Panic";
     isinstance_WirelessSensor := true; isinstance_Camera := false;
     node_online := None; is_online := None; is_on := false;
     equipment_type := EquipmentType.Other 11;
     sensor_type := SensorType.Other 0;
     equipment_code_name := "PANIC1_2GIG_PANIC1" |}.

Definition doorbell_camera : VivintDevice :=
  {| id := 20; name := "Doorbell";
     isinstance_WirelessSensor := false; isinstance_Camera := true;
     node_online := None; is_online := Some true; is_on := false;
     equipment_type := EquipmentType.Other 0;
     sensor_type := SensorType.Other 0;
     equipment_code_name := "" |}.

Definition door_lock : VivintDevice :=
  {| id := 21; name := "Back Door Lock";
     isinstance_WirelessSensor := false; isinstance_Camera := false;
     node_online := Some true; is_online := Some true; is_on := false;
     equipment_type := EquipmentType.Other 0;
     sensor_type := SensorType.Other 0;
     equipment_code_name := "" |}.

Definition thermostat : VivintDevice :=
  {| id := 22; name := "Thermostat";
     isinstance_WirelessSensor := false; isinstance_Camera := false;
     node_online := None; is_online := Some false; is_on := false;
     equipment_type := EquipmentType.Other 0;
     sensor_type := SensorType.Other 0;
     equipment_code_name := "" |}.

Definition garage_switch : VivintDevice :=
  {| id := 23; name := "Switch";
     isinstance_WirelessSensor := false; isinstance_Camera := false;
     node_online := None; is_online := None; is_on := false;
     equipment_type := EquipmentType.Other 0;
     sensor_type := SensorType.Other 0;
     equipment_code_name := "" |}.

(** An installation in which no device yields a binary sensor. *)
Definition bare_systems : list System :=
  [ {| alarm_panels := [ {| devices := [garage_switch] |} ] |} ].

Definition home_systems : list System :=
  [ {| alarm_panels := [ {| devices := [tilt_sensor; doorbell_camera] |};
                         {| devices := [door_lock] |} ] |};
    {| alarm_panels := [ {| devices := [garage_switch; thermostat] |} ] |} ].

Definition empty_host : BinarySensor.HomeAssistant :=
  {| BinarySensor.platform_entities := []; BinarySensor.dispatcher := ∅ |}.

Definition home_entry : BinarySensor.ConfigEntry :=
  {| BinarySensor.entry_id := "0123abcd"; BinarySensor.on_unload := [] |}.

(** The SDK connects and the session ends up with one cookie. *)
Definition connect_ok : Hub.SdkOutcome :=
  {| Hub.raises := None; Hub.connected_after := true;
     Hub.cookies_after := [("s"%string, "7f3a"%string)] |}.

Definition connect_mfa : Hub.SdkOutcome :=
  {| Hub.raises := Some VivintSkyApiMfaRequiredError;
     Hub.connected_after := false; Hub.cookies_after := [] |}.

(** A hub with a teardown callback, after a first successful login. *)
Definition logged_in_hub : Hub.VivintHub :=
  (Hub.login connect_ok None (Hub.init (Some 0%nat) None)).2.

(** A camera without direct access: the device has no direct URL. *)
Definition relay_only : Camera.Environment :=
  {| Camera.get_direct_rtsp_url := fun _ _ => Return None;
     Camera.get_rtsp_url := fun _ internal _ =>
       Return (Some (if internal then "rtsp://10.0.0.2/internal"
                     else "rtsp://relay.example/external")%string);
     Camera.async_get_image := fun _ _ => Raise (OtherException "TimeoutError") |}.

(** A camera whose relay URL is not available at the first call. *)
Definition late_relay : Camera.Environment :=
  {| Camera.get_direct_rtsp_url := fun _ _ => Return None;
     Camera.get_rtsp_url := fun n _ _ =>
       match n with
       | O => Return None
       | S _ => Return (Some "rtsp://relay.example/external"%string)
       end;
     Camera.async_get_image := fun _ _ => Raise (OtherException "TimeoutError") |}.

(** A camera with direct access whose first capture succeeds. *)
Definition direct_camera : Camera.Environment :=
  {| Camera.get_direct_rtsp_url := fun _ hd =>
       Return (Some (if hd then "rtsp://10.0.0.9/hd"
                     else "rtsp://10.0.0.9/sd")%string);
     Camera.get_rtsp_url := fun _ _ _ => Return None;
     Camera.async_get_image := fun _ _ =>
       Return (Some [Byte.xff; Byte.xd8]) |}.

(** A login whose cache file cannot be written: the hub has its account
    and session, and no cache file. *)
Definition unsaved_hub : Hub.VivintHub :=
  (Hub.login connect_ok (Some (OtherException "PermissionError"))
     (Hub.init (Some 0%nat) None)).2.

(** An alarm panel and a keypad that is one of its sub-devices. *)
Definition registry_panel : Hub.Device :=
  {| Hub.device_id := 0; Hub.panel_id := 4711;
     Hub.device_name := Some "Panel"%string; Hub.type_name := "AlarmPanel";
     Hub.is_subdevice := false; Hub.parent := None;
     Hub.manufacturer := Some "Vivint"%string;
     Hub.model := Some "SkyControl"%string;
     Hub.software_version := Some "4.6.1"%string;
     Hub.isinstance_AlarmPanel := true; Hub.alarm_panel := None |}.

Definition registry_keypad : Hub.Device :=
  {| Hub.device_id := 31; Hub.panel_id := 4711;
     Hub.device_name := None; Hub.type_name := "Keypad";
     Hub.is_subdevice := true; Hub.parent := Some registry_panel;
     Hub.manufacturer := None; Hub.model := None;
     Hub.software_version := None;
     Hub.isinstance_AlarmPanel := false;
     Hub.alarm_panel := Some registry_panel |}.

Definition registry_lock : Hub.Device :=
  {| Hub.device_id := 21; Hub.panel_id := 4711;
     Hub.device_name := Some "Back Door Lock"%string; Hub.type_name := "DoorLock";
     Hub.is_subdevice := false; Hub.parent := None;
     Hub.manufacturer := Some "Kwikset"%string; Hub.model := None;
     Hub.software_version := None;
     Hub.isinstance_AlarmPanel := false;
     Hub.alarm_panel := Some registry_panel |}.

(** A camera whose captures fade: the first returns a frame, the second
    returns [None] and the later ones raise. *)
Definition fading_camera : Camera.Environment :=
  {| Camera.get_direct_rtsp_url := fun _ hd =>
       Return (Some (if hd then "rtsp://10.0.0.9/hd"
                     else "rtsp://10.0.0.9/sd")%string);
     Camera.get_rtsp_url := fun _ _ _ => Return None;
     Camera.async_get_image := fun n _ =>
       match n with
       | 1%nat => Return (Some [Byte.xff; Byte.xd8])
       | 2%nat => Return None
       | _ => Raise (OtherException "TimeoutError")
       end |}.

(** A camera that cannot be reached. *)
Definition unreachable : Camera.Environment :=
  {| Camera.get_direct_rtsp_url := fun _ _ => Raise ClientConnectorError;
     Camera.get_rtsp_url := fun _ _ _ => Raise ClientConnectorError;
     Camera.async_get_image := fun _ _ => Raise (OtherException "TimeoutError") |}.

Definition no_options : Camera.Options :=
  {| Camera.CONF_HD_STREAM := None; Camera.CONF_RTSP_STREAM := None;
     Camera.CONF_RTSP_URL_LOGGING := None |}.

Definition logging_on : Camera.Options :=
  {| Camera.CONF_HD_STREAM := Some false;
     Camera.CONF_RTSP_STREAM := Some Camera.RTSP_STREAM_INTERNAL;
     Camera.CONF_RTSP_URL_LOGGING := Some true |}.

Definition empty_platform : Camera.Platform :=
  {| Camera.fetches := []; Camera.info_lines := []; Camera.added := [] |}.

(** A camera entity that has resolved and cached its source. *)
Definition resolved_cam : Camera.VivintCam :=
  (Camera.stream_source direct_camera
     (Camera.init "Doorbell" true Camera.RTSP_STREAM_DIRECT)).2.

End Examples.

(** * Theorems *)

(** ** Strings *)

Lemma prefix_spec (a b : string) :
  String.prefix a b = true <-> exists q, b = a +:+ q.
Proof.
  revert b. induction a as [|c a IH]; intros b; simpl.
  - destruct b; simpl; (split; [intros _; eauto | done]).
  - destruct b as [|c' b]; simpl.
    + split; [done | intros [q Hq]; discriminate].
    + destruct (Ascii.ascii_dec c c') as [->|Hne].
      * rewrite IH. split; intros [q Hq]; exists q; [by rewrite Hq | by injection Hq].
      * split; [done | intros [q Hq]; injection Hq; congruence].
Qed.

Lemma str_in_spec (sub s : string) :
  str_in sub s = true <-> exists p q, s = p +:+ sub +:+ q.
Proof.
  induction s as [|c s IH]; cbn [str_in].
  - destruct (String.prefix sub "") eqn:Hp.
    + split; [intros _ | done].
      apply prefix_spec in Hp as [q Hq]. by exists ""%string, q.
    + split; [done | intros [p [q Hq]]].
      destruct p; [|discriminate]. simpl in Hq.
      assert (String.prefix sub "" = true) by (apply prefix_spec; eauto).
      congruence.
  - destruct (String.prefix sub (String c s)) eqn:Hp.
    + split; [intros _ | done].
      apply prefix_spec in Hp as [q Hq]. by exists ""%string, q.
    + rewrite IH. split.
      * intros [p [q Hq]]. exists (String c p), q. simpl. by rewrite Hq.
      * intros [p [q Hq]]. destruct p as [|c' p]; simpl in Hq.
        -- assert (String.prefix sub (String c s) = true)
             by (apply prefix_spec; eauto).
           congruence.
        -- injection Hq as _ Hs. eauto.
Qed.

(** ** binary_sensor.py: device class *)

Section DeviceClass.
Import Vivintpy BinarySensor.

(** C4.  A contact sensor of sensor type exit/entry-1 has device class
    garage_door when its equipment code name contains "TILT", and door
    when it does not. *)
Theorem device_class_contact_exit_entry (device : VivintDevice) :
  device.(equipment_type) = EquipmentType.CONTACT ->
  device.(sensor_type) = SensorType.EXIT_ENTRY_1 ->
  ((exists p q, device.(equipment_code_name) = p +:+ "TILT" +:+ q) ->
   device_class device = Some BinarySensorDeviceClass.GARAGE_DOOR)
  /\ (~ (exists p q, device.(equipment_code_name) = p +:+ "TILT" +:+ q) ->
      device_class device = Some BinarySensorDeviceClass.DOOR).
Proof.
  intros Het Hst. unfold device_class. rewrite Het, Hst. simpl.
  split; intros Hname.
  - apply str_in_spec in Hname. by rewrite Hname.
  - destruct (str_in "TILT" _) eqn:Hin; [|done].
    apply str_in_spec in Hin. contradiction.
Qed.

(** C5.  A contact sensor whose sensor type is none of exit/entry-1,
    perimeter, fire, fire-with-verification and carbon_monoxide has no
    device class (the function returns [None]); an equipment type other
    than motion, freeze, water, temperature and contact gives safety. *)
Theorem device_class_contact_fallthrough (device : VivintDevice) :
  (device.(equipment_type) = EquipmentType.CONTACT ->
   device.(sensor_type) ∉
     [SensorType.EXIT_ENTRY_1; SensorType.PERIMETER; SensorType.FIRE;
      SensorType.FIRE_WITH_VERIFICATION; SensorType.CARBON_MONOXIDE] ->
   device_class device = None)
  /\ (device.(equipment_type) ∉
        [EquipmentType.MOTION; EquipmentType.FREEZE; EquipmentType.WATER;
         EquipmentType.TEMPERATURE; EquipmentType.CONTACT] ->
      device_class device = Some BinarySensorDeviceClass.SAFETY).
Proof.
  unfold device_class. split.
  - intros -> Hst. simpl.
    rewrite !not_elem_of_cons in Hst. destruct Hst as (?&?&?&?&?&_).
    rewrite !bool_decide_eq_false_2; [done|done|..|done|done].
    rewrite !not_elem_of_cons. repeat split; [done|done|apply not_elem_of_nil].
  - intros Het. simpl.
    rewrite !not_elem_of_cons in Het. destruct Het as (?&?&?&?&?&_).
    by rewrite !bool_decide_eq_false_2.
Qed.

End DeviceClass.

(** ** binary_sensor.py: setup *)

Section Classification.
Import Vivintpy BinarySensor.

Lemma classify_device_app (entities : list Entity) (device : VivintDevice) :
  classify_device entities device = entities ++ classify_device [] device.
Proof.
  unfold classify_device.
  destruct (isinstance_WirelessSensor device); [done|].
  destruct (isinstance_Camera device); [done|].
  destruct (hasattr (node_online device)); [done|].
  destruct (hasattr (is_online device)); [done|].
  by rewrite app_nil_r.
Qed.

Lemma foldl_classify_device (devices : list VivintDevice) (entities : list Entity) :
  foldl classify_device entities devices
  = entities ++ (devices ≫= classify_device []).
Proof.
  revert entities. induction devices as [|device devices IH]; intros entities.
  - by rewrite app_nil_r.
  - cbn [foldl]. rewrite IH, classify_device_app, bind_cons. by rewrite <- app_assoc.
Qed.

Lemma foldl_panels (panels : list AlarmPanel) (entities : list Entity) :
  foldl (fun entities alarm_panel =>
           foldl classify_device entities alarm_panel.(devices)) entities panels
  = entities ++ ((alarm_panel ← panels; alarm_panel.(devices)) ≫= classify_device []).
Proof.
  revert entities. induction panels as [|panel panels IH]; intros entities.
  - by rewrite app_nil_r.
  - cbn [foldl]. rewrite IH, foldl_classify_device, bind_cons, bind_app.
    by rewrite <- app_assoc.
Qed.

Lemma foldl_systems (systems : list System) (entities : list Entity) :
  foldl (fun entities system =>
    foldl (fun entities alarm_panel =>
      foldl classify_device entities alarm_panel.(devices))
      entities system.(alarm_panels)) entities systems
  = entities ++ (traversal systems ≫= classify_device []).
Proof.
  revert entities. induction systems as [|system systems IH]; intros entities.
  - by rewrite app_nil_r.
  - cbn [foldl]. rewrite IH, foldl_panels. unfold traversal.
    rewrite bind_cons, bind_app. by rewrite <- app_assoc.
Qed.

Lemma collect_entities_traversal (systems : list System) :
  collect_entities systems = traversal systems ≫= classify_device [].
Proof. unfold collect_entities. by rewrite foldl_systems. Qed.

(** C3.  The entities that setup collects are, in traversal order, what
    each device contributes on its own; a device contributes at most one
    entity, chosen by the first rule that matches (wireless sensor, camera,
    [node_online], [is_online], nothing); and the entities that a run of
    setup registers depend on the device list alone, not on the host's
    state. *)
Theorem classification_first_match (systems : list System) :
  collect_entities systems = traversal systems ≫= classify_device []
  /\ (forall device : VivintDevice,
        (length (classify_device [] device) <= 1)%nat
        /\ (device.(isinstance_WirelessSensor) = true ->
            classify_device [] device = [VivintBinarySensorEntity device])
        /\ (device.(isinstance_WirelessSensor) = false ->
            device.(isinstance_Camera) = true ->
            classify_device [] device
            = [VivintCameraBinarySensorEntity device ENTITY_DESCRIPTION_MOTION])
        /\ (device.(isinstance_WirelessSensor) = false ->
            device.(isinstance_Camera) = false ->
            is_Some device.(node_online) ->
            classify_device [] device
            = [VivintOnlineBinarySensorEntity device "node_online"])
        /\ (device.(isinstance_WirelessSensor) = false ->
            device.(isinstance_Camera) = false ->
            device.(node_online) = None ->
            is_Some device.(is_online) ->
            classify_device [] device
            = [VivintOnlineBinarySensorEntity device "is_online"])
        /\ (device.(isinstance_WirelessSensor) = false ->
            device.(isinstance_Camera) = false ->
            device.(node_online) = None ->
            device.(is_online) = None ->
            classify_device [] device = []))
  /\ (forall (DOMAIN : string) (hass : HomeAssistant) (config_entry : ConfigEntry),
        (async_setup_entry DOMAIN hass config_entry systems).1.(platform_entities)
        = hass.(platform_entities)
          ++ ((fun e => (config_entry.(entry_id), e)) <$> collect_entities systems)).
Proof.
  split; [apply collect_entities_traversal|]. split.
  - intros device. unfold classify_device.
    destruct (isinstance_WirelessSensor device), (isinstance_Camera device),
      (node_online device) as [?|], (is_online device) as [?|]; simpl;
      repeat split; intros; try done; try lia;
      repeat match goal with H : is_Some None |- _ => destruct H; done end.
  - intros DOMAIN hass config_entry. unfold async_setup_entry.
    case_bool_decide as Hempty; simpl.
    + by rewrite Hempty, app_nil_r.
    + done.
Qed.

(** C10.  When the initial classification finds no entity, setup returns
    with the host and the config entry untouched: nothing is connected to
    the entry's device-added signal, and sending that signal afterwards,
    for any device, creates no entity.  When it finds some, the closure is
    connected to the signal, and sending the signal for a wireless sensor
    adds that sensor's entity. *)
Theorem setup_without_entities_connects_nothing
    (DOMAIN : string) (hass : HomeAssistant) (config_entry : ConfigEntry)
    (systems : list System) :
  let after := async_setup_entry DOMAIN hass config_entry systems in
  let signal := add_signal DOMAIN config_entry.(entry_id) in
  hass.(dispatcher) !! signal = None ->
  (collect_entities systems = [] ->
   after = (hass, config_entry)
   /\ after.1.(dispatcher) !! signal = None
   /\ forall device, async_dispatcher_send signal device after.1 = after.1)
  /\ (collect_entities systems <> [] ->
      after.1.(dispatcher) !! signal
      = Some [AsyncAddSensor config_entry.(entry_id)]
      /\ forall device,
           device.(isinstance_WirelessSensor) = true ->
           (async_dispatcher_send signal device after.1).(platform_entities)
           = after.1.(platform_entities)
             ++ [(config_entry.(entry_id), VivintBinarySensorEntity device)]).
Proof.
  intros after signal Hfresh. subst after. unfold async_setup_entry.
  fold signal. split; intros Hentities.
  - rewrite bool_decide_eq_true_2 by done. simpl.
    split; [done|]. split; [done|].
    intros device. unfold async_dispatcher_send. by rewrite Hfresh.
  - rewrite bool_decide_eq_false_2 by done. simpl.
    rewrite Hfresh. simpl. rewrite lookup_insert_eq. split; [done|].
    intros device Hsensor. unfold async_dispatcher_send. simpl.
    rewrite lookup_insert_eq, Hfresh. simpl. unfold async_add_sensor.
    by rewrite Hsensor.
Qed.

End Classification.

(** ** binary_sensor.py: the camera motion sensor *)

Section Motion.
Import BinarySensor.

Lemma timedelta_30 : timedelta MOTION_STOPPED_SECONDS = 30000000.
Proof. reflexivity. Qed.

Lemma filter_own_handle (handle : nat) (due : Z) :
  filter (fun timer : nat * Z => timer.1 ≠ handle) [(handle, due)] = [].
Proof. rewrite filter_cons_False; [done | by intros Hne; apply Hne]. Qed.

Lemma timer_invariant_init (now : Z) : timer_invariant (init now).
Proof. split; [done | intros last Hlast; discriminate]. Qed.

Lemma timer_invariant_cancel (s : MotionState) :
  timer_invariant s ->
  let s' := async_cancel_motion_stopped_callback s in
  s'.(hass_loop).(pending) = []
  /\ s'.(self).(_motion_stopped_callback) = None
  /\ s'.(self).(_last_motion_event) = s.(self).(_last_motion_event)
  /\ s'.(hass_loop).(utcnow) = s.(hass_loop).(utcnow)
  /\ s'.(hass_loop).(next_handle) = s.(hass_loop).(next_handle)
  /\ s'.(self).(listening) = s.(self).(listening).
Proof.
  intros [Hheld _]. unfold async_cancel_motion_stopped_callback.
  destruct (_motion_stopped_callback (self s)) as [handle|] eqn:Hcb; simpl.
  - destruct Hheld as (last & due & _ & Hpending & _). rewrite Hpending.
    repeat split. apply filter_own_handle.
  - by rewrite Hcb.
Qed.

Lemma timer_invariant_motion (latency : N) (s : MotionState) :
  timer_invariant s -> timer_invariant (_motion_callback latency s).
Proof.
  intros Hinv. pose proof (timer_invariant_cancel s Hinv) as Hcancel.
  unfold _motion_callback.
  destruct (async_cancel_motion_stopped_callback s) as [loop entity].
  simpl in Hcancel. destruct Hcancel as (Hp & _). split; simpl.
  - eexists _, _. split; [done|]. rewrite Hp. split; [done|].
    rewrite ?timedelta_30. lia.
  - intros last [= <-]. lia.
Qed.

Lemma run_until_quiet (target : Z) (s : MotionState) :
  s.(hass_loop).(pending) = [] ->
  run_until target s
  = {| hass_loop := {| utcnow := Z.max s.(hass_loop).(utcnow) target;
                       pending := [];
                       next_handle := s.(hass_loop).(next_handle);
                       timer_calls := s.(hass_loop).(timer_calls) |};
       self := s.(self) |}.
Proof. intros Hp. unfold run_until. rewrite Hp. simpl. by rewrite Hp. Qed.

Lemma run_until_early (target : Z) (s : MotionState) (handle : nat) (due : Z) :
  s.(hass_loop).(pending) = [(handle, due)] -> target < due ->
  run_until target s
  = {| hass_loop := {| utcnow := Z.max s.(hass_loop).(utcnow) target;
                       pending := [(handle, due)];
                       next_handle := s.(hass_loop).(next_handle);
                       timer_calls := s.(hass_loop).(timer_calls) |};
       self := s.(self) |}.
Proof.
  intros Hp Hlt. unfold run_until. rewrite Hp.
  rewrite filter_cons_False by (simpl; lia). simpl. by rewrite Hp.
Qed.

Lemma run_until_due (target : Z) (s : MotionState) (handle : nat) (due : Z) :
  s.(hass_loop).(pending) = [(handle, due)] -> due <= target ->
  let s' := run_until target s in
  s'.(hass_loop).(pending) = []
  /\ s'.(self).(_last_motion_event) = None
  /\ s'.(self).(_motion_stopped_callback) = None
  /\ s'.(hass_loop).(utcnow) = Z.max (Z.max s.(hass_loop).(utcnow) due) target
  /\ s'.(hass_loop).(timer_calls) = s.(hass_loop).(timer_calls) ++ [Fire handle]
  /\ s'.(self).(listening) = s.(self).(listening).
Proof.
  intros Hp Hle. unfold run_until. rewrite Hp.
  rewrite filter_cons_True by (simpl; lia). simpl. unfold fire. rewrite Hp.
  rewrite bool_decide_eq_true_2 by apply list_elem_of_here. simpl.
  by rewrite filter_own_handle.
Qed.

Lemma timer_invariant_run_until (dt : N) (s : MotionState) :
  timer_invariant s ->
  timer_invariant (run_until (s.(hass_loop).(utcnow) + Z.of_N dt) s).
Proof.
  intros [Hheld Hpast].
  destruct (_motion_stopped_callback (self s)) as [handle|] eqn:Hcb.
  - destruct Hheld as (last & due & Hlast & Hp & Hlate & Hnow).
    destruct (Z_lt_le_dec (utcnow (hass_loop s) + Z.of_N dt) due)
      as [Hearly|Hdue].
    + rewrite (run_until_early _ _ _ _ Hp Hearly). split; simpl.
      * rewrite Hcb. exists last, due. repeat split; [done|done|lia].
      * intros l Hl. specialize (Hpast l Hl). lia.
    + destruct (run_until_due _ _ _ _ Hp Hdue) as (Hp' & Hlast' & Hcb' & _).
      split.
      * by rewrite Hcb'.
      * intros l Hl. rewrite Hlast' in Hl. discriminate.
  - rewrite (run_until_quiet _ _ Hheld). split; simpl.
    + by rewrite Hcb.
    + intros l Hl. specialize (Hpast l Hl). lia.
Qed.

Lemma timer_invariant_step (s : MotionState) (event : Event) :
  timer_invariant s -> timer_invariant (step s event).
Proof.
  intros Hinv. destruct event as [|latency|dt|]; simpl.
  - exact Hinv.
  - destruct (listening (self s)); [by apply timer_invariant_motion | done].
  - by apply timer_invariant_run_until.
  - destruct (timer_invariant_cancel s Hinv) as (Hp & Hcb & Hlast & Hnow & _).
    destruct Hinv as [_ Hpast]. split; simpl.
    + by rewrite Hcb.
    + intros l Hl. rewrite Hnow. apply Hpast. by rewrite <- Hlast.
Qed.

Lemma timer_invariant_run (events : list Event) (s : MotionState) :
  timer_invariant s -> timer_invariant (run events s).
Proof.
  revert s. induction events as [|event events IH]; intros s Hinv; [done|].
  apply IH. by apply timer_invariant_step.
Qed.

Lemma motion_callback_effect (latency : N) (s : MotionState) :
  timer_invariant s ->
  let s' := _motion_callback latency s in
  let due := s.(hass_loop).(utcnow) + Z.of_N latency
             + timedelta MOTION_STOPPED_SECONDS in
  s'.(hass_loop).(pending) = [(s.(hass_loop).(next_handle), due)]
  /\ s'.(hass_loop).(timer_calls)
     = s.(hass_loop).(timer_calls)
       ++ match s.(self).(_motion_stopped_callback) with
          | Some held => [Cancel held]
          | None => []
          end
       ++ [CallLater s.(hass_loop).(next_handle) due]
  /\ s'.(self).(_motion_stopped_callback) = Some s.(hass_loop).(next_handle)
  /\ s'.(self).(_last_motion_event) = Some s.(hass_loop).(utcnow)
  /\ s'.(hass_loop).(utcnow) = s.(hass_loop).(utcnow)
  /\ s'.(hass_loop).(next_handle) = S s.(hass_loop).(next_handle)
  /\ s'.(self).(listening) = s.(self).(listening).
Proof.
  intros [Hheld _]. unfold _motion_callback, async_cancel_motion_stopped_callback.
  destruct (_motion_stopped_callback (self s)) as [held|] eqn:Hcb; simpl.
  - destruct Hheld as (last & due & _ & Hp & _). rewrite Hp, filter_own_handle.
    repeat split. by rewrite <- app_assoc.
  - rewrite Hheld. by repeat split.
Qed.

Lemma motion_callback_quiet (latency : N) (s : MotionState) :
  timer_invariant s ->
  quiet_since s.(hass_loop).(utcnow)
              (s.(hass_loop).(utcnow) + Z.of_N latency
               + timedelta MOTION_STOPPED_SECONDS)
              s.(hass_loop).(next_handle)
              (_motion_callback latency s).
Proof.
  intros Hinv.
  destruct (motion_callback_effect latency s Hinv)
    as (Hp & _ & Hcb & Hlast & Hnow & _).
  split; [lia|]. left. rewrite Hnow, timedelta_30. repeat split; [lia|done..].
Qed.

Lemma quiet_since_elapse (at_time due : Z) (handle : nat) (s : MotionState)
    (dt : N) :
  quiet_since at_time due handle s ->
  quiet_since at_time due handle (step s (Elapse dt))
  /\ (step s (Elapse dt)).(hass_loop).(utcnow)
     = s.(hass_loop).(utcnow) + Z.of_N dt.
Proof.
  intros [Hafter [(Hnow & Hlast & Hcb & Hp) | (Hnow & Hlast & Hcb & Hp)]];
    cbn [step].
  - destruct (Z_lt_le_dec (utcnow (hass_loop s) + Z.of_N dt) due)
      as [Hearly|Hdue].
    + rewrite (run_until_early _ _ _ _ Hp Hearly). unfold quiet_since. cbn.
      split; [|lia]. split; [lia|]. left. repeat split; [lia|done..].
    + destruct (run_until_due _ _ _ _ Hp Hdue) as (Hp' & Hlast' & Hcb' & Hnow' & _).
      unfold quiet_since. rewrite Hnow'.
      split; [|lia]. split; [lia|]. right. repeat split; [lia|done..].
  - rewrite (run_until_quiet _ _ Hp). unfold quiet_since. cbn.
    split; [|lia]. split; [lia|]. right. repeat split; [lia|done..].
Qed.

Lemma quiet_since_waits (at_time due : Z) (handle : nat) (waits : list N)
    (s : MotionState) :
  quiet_since at_time due handle s ->
  quiet_since at_time due handle (run (Elapse <$> waits) s)
  /\ (run (Elapse <$> waits) s).(hass_loop).(utcnow)
     = s.(hass_loop).(utcnow) + Z.of_N (total_wait waits).
Proof.
  revert s. induction waits as [|dt waits IH]; intros s Hquiet.
  - simpl. split; [done|lia].
  - destruct (quiet_since_elapse _ _ _ _ dt Hquiet) as [Hquiet' Hnow'].
    destruct (IH _ Hquiet') as [Hquiet'' Hnow''].
    change (run (Elapse <$> dt :: waits) s)
      with (run (Elapse <$> waits) (step s (Elapse dt))).
    split; [done|]. rewrite Hnow'', Hnow'.
    change (total_wait (dt :: waits)) with (dt + total_wait waits)%N. lia.
Qed.

Lemma is_on_quiet (at_time due : Z) (handle : nat) (s : MotionState) :
  quiet_since at_time due handle s ->
  is_on s
  = bool_decide (s.(hass_loop).(utcnow) - at_time
                 <= timedelta MOTION_STOPPED_SECONDS)
    && bool_decide (s.(hass_loop).(utcnow) < due).
Proof.
  intros [Hafter [(Hnow & Hlast & _) | (Hnow & Hlast & _)]]; unfold is_on;
    rewrite Hlast.
  - rewrite (bool_decide_eq_true_2 (_ < due)) by done. rewrite andb_true_r.
    change (timedelta 30) with (timedelta MOTION_STOPPED_SECONDS).
    case_bool_decide as Hold.
    + apply Z.geb_le. lia.
    + rewrite Z.geb_leb. apply Z.leb_gt. lia.
  - rewrite (bool_decide_eq_false_2 (_ < due)) by lia. by rewrite andb_false_r.
Qed.

(** C1, as the code has it.  [is_on] holds exactly when a last-motion
    instant is recorded and the clock is at most thirty seconds past it.
    After a motion event delivered to a listening entity, with nothing but
    time passing since, [is_on] is true while less than thirty seconds
    have elapsed since the recorded instant and false once more than
    thirty seconds have; at exactly thirty seconds it is still true,
    unless the cool-down callback was registered with no latency and has
    therefore fired already. *)
Theorem is_on_within_thirty_seconds :
  (forall s : MotionState,
     is_on s = true <->
     exists last, s.(self).(_last_motion_event) = Some last
                  /\ s.(hass_loop).(utcnow) - last <= timedelta 30)
  /\ (forall (events : list Event) (t0 : Z) (latency : N) (waits : list N),
        let s0 := run events (init t0) in
        s0.(self).(listening) = true ->
        let s := run (MotionDetected latency :: (Elapse <$> waits)) s0 in
        let t := s.(hass_loop).(utcnow) - s0.(hass_loop).(utcnow) in
        t = Z.of_N (total_wait waits)
        /\ (t < timedelta 30 -> is_on s = true)
        /\ (timedelta 30 < t -> is_on s = false)
        /\ (t = timedelta 30 ->
            is_on s = bool_decide (0 < Z.of_N latency))).
Proof.
  split.
  - intros s. unfold is_on.
    destruct (_last_motion_event (self s)) as [last|].
    + rewrite Z.geb_le. split.
      * intros Hle. exists last. split; [done|lia].
      * intros (l & [= <-] & Hle). lia.
    + split; [done | by intros (l & Hl & _)].
  - intros events t0 latency waits s0 Hlistening s t.
    assert (Hinv : timer_invariant s0)
      by apply timer_invariant_run, timer_invariant_init.
    pose proof (motion_callback_quiet latency s0 Hinv) as Hquiet.
    destruct (motion_callback_effect latency s0 Hinv)
      as (_ & _ & _ & _ & Hnow & _).
    destruct (quiet_since_waits _ _ _ waits _ Hquiet) as [Hquiet' Hnow'].
    assert (Hs : s = run (Elapse <$> waits) (_motion_callback latency s0)).
    { subst s. unfold run at 1. cbn [foldl step]. by rewrite Hlistening. }
    subst t. rewrite Hs, Hnow', Hnow. split; [lia|].
    rewrite (is_on_quiet _ _ _ _ Hquiet'), Hnow', Hnow.
    change (timedelta 30) with (timedelta MOTION_STOPPED_SECONDS).
    rewrite timedelta_30. split_and!; intros Ht.
    + rewrite !bool_decide_eq_true_2 by lia. done.
    + rewrite (bool_decide_eq_false_2 (_ <= _)) by lia. done.
    + rewrite (bool_decide_eq_true_2 (_ <= _)) by lia. rewrite andb_true_l.
      apply bool_decide_ext. lia.
Qed.

(** C2.  In every state the entity reaches, at most one cool-down callback
    is pending, and one is pending exactly when the entity holds a handle.
    A motion event cancels the held handle, if there is one, and registers
    one callback due thirty seconds after its registration, which is then
    the only one pending; a second motion event less than thirty seconds
    after the first adds exactly one cancellation, of the first event's
    callback, and one registration. *)
Theorem at_most_one_pending_timer (events : list Event) (t0 : Z) :
  let s := run events (init t0) in
  (length s.(hass_loop).(pending) <= 1)%nat
  /\ (s.(self).(_motion_stopped_callback) = None
      <-> s.(hass_loop).(pending) = [])
  /\ (s.(self).(listening) = true ->
      forall latency : N,
      let s1 := step s (MotionDetected latency) in
      let first := s.(hass_loop).(next_handle) in
      let now := s.(hass_loop).(utcnow) in
      s1.(hass_loop).(pending)
      = [(first, now + Z.of_N latency + timedelta 30)]
      /\ s1.(hass_loop).(timer_calls)
         = s.(hass_loop).(timer_calls)
           ++ match s.(self).(_motion_stopped_callback) with
              | Some held => [Cancel held]
              | None => []
              end
           ++ [CallLater first (now + Z.of_N latency + timedelta 30)]
      /\ forall dt again : N,
           Z.of_N dt < timedelta 30 ->
           let s2 := step (step s1 (Elapse dt)) (MotionDetected again) in
           s2.(hass_loop).(timer_calls)
           = s1.(hass_loop).(timer_calls)
             ++ [Cancel first;
                 CallLater (S first)
                   (now + Z.of_N dt + Z.of_N again + timedelta 30)]
           /\ s2.(hass_loop).(pending)
              = [(S first, now + Z.of_N dt + Z.of_N again + timedelta 30)]).
Proof.
  intros s.
  assert (Hinv : timer_invariant s)
    by apply timer_invariant_run, timer_invariant_init.
  split; [|split].
  - destruct Hinv as [Hheld _].
    destruct (_motion_stopped_callback (self s)).
    + destruct Hheld as (last & due & _ & -> & _). simpl. lia.
    + rewrite Hheld. simpl. lia.
  - destruct Hinv as [Hheld _].
    destruct (_motion_stopped_callback (self s)).
    + destruct Hheld as (last & due & _ & -> & _). split; intros; discriminate.
    + done.
  - intros Hlistening latency s1 first now. subst s1. cbn [step].
    rewrite Hlistening.
    change (timedelta 30) with (timedelta MOTION_STOPPED_SECONDS).
    destruct (motion_callback_effect latency s Hinv)
      as (Hp & Hcalls & Hcb & Hlast & Hnow & Hnext & Hlisten).
    split; [done|]. split; [done|]. intros dt again Hdt.
    assert (Hinv1 : timer_invariant (_motion_callback latency s))
      by by apply timer_invariant_motion.
    remember (_motion_callback latency s) as s1 eqn:Hs1. clear Hs1.
    assert (Hearly : utcnow (hass_loop s1) + Z.of_N dt
                     < utcnow (hass_loop s) + Z.of_N latency
                       + timedelta MOTION_STOPPED_SECONDS)
      by (rewrite Hnow; lia).
    pose proof (run_until_early _ _ _ _ Hp Hearly) as Helapsed.
    assert (Hinv' : timer_invariant
                      (run_until (utcnow (hass_loop s1) + Z.of_N dt) s1))
      by by apply timer_invariant_run_until.
    destruct (motion_callback_effect again _ Hinv') as (Hp2 & Hcalls2 & _).
    rewrite Helapsed in Hp2, Hcalls2 |- *. cbn [self hass_loop] in *.
    rewrite Hlisten, Hlistening, Hp2, Hcalls2. simpl.
    rewrite Hcb, Hnext, Hnow, Z.max_r by lia. done.
Qed.

End Motion.

(** ** hub.py *)

Section HubFacts.
Import Hub.

Ltac in_log :=
  repeat (rewrite ?elem_of_app, ?elem_of_cons); tauto.

Ltac py_run :=
  unfold login, verify_mfa, save_session, sdk_call, disconnect,
    remove_cache_file, effect, try_except, bind, get, modify, ret, raise;
  simpl.

(** C6.  [login] raises the MFA-required error when the SDK's connect
    raises it, the authentication error on bad credentials (logging
    "Invalid credentials"), and the API or HTTP client error on a network
    or API failure (logging that it cannot connect); in each case the hub
    is left not logged in and the cache file is as it was.  Whenever
    [login] returns, it returns [True], the hub is logged in and the cache
    file holds the session's cookie jar; and it does return when neither
    connecting nor saving raises. *)
Theorem login_outcomes (connect : SdkOutcome) (save_raises : option Exception)
    (self : VivintHub) :
  let result := (login connect save_raises self).1 in
  let after := (login connect save_raises self).2 in
  (connect.(raises) = Some VivintSkyApiMfaRequiredError ->
   result = Raise VivintSkyApiMfaRequiredError
   /\ after.(logged_in) = false /\ after.(cache_file) = self.(cache_file))
  /\ (connect.(raises) = Some VivintSkyApiAuthenticationError ->
      result = Raise VivintSkyApiAuthenticationError
      /\ after.(logged_in) = false /\ after.(cache_file) = self.(cache_file)
      /\ LogError "Invalid credentials" ∈ after.(effects))
  /\ (forall ex,
        ex ∈ [VivintSkyApiError; ClientResponseError; ClientConnectorError] ->
        connect.(raises) = Some ex ->
        result = Raise ex
        /\ after.(logged_in) = false /\ after.(cache_file) = self.(cache_file)
        /\ LogError "Unable to connect to the Vivint API" ∈ after.(effects))
  /\ (forall ex, result = Raise ex -> after.(logged_in) = false)
  /\ (forall flag,
        result = Return flag ->
        flag = true
        /\ after.(logged_in) = true
        /\ after.(session)
           = Some {| closed := false; cookie_jar := connect.(cookies_after) |}
        /\ after.(cache_file) = Some connect.(cookies_after)
        /\ CookieJarSave ∈ after.(effects))
  /\ (connect.(raises) = None -> save_raises = None -> result = Return true).
Proof.
  destruct connect as [raised connected cookies].
  destruct self as [listener acc flag http disk log].
  cbn [raises cookies_after connected_after cache_file].
  split_and!.
  - intros ->. by destruct disk.
  - intros ->. destruct disk; py_run; split_and!; try done; in_log.
  - intros ex Hex ->. rewrite !elem_of_cons in Hex.
    destruct Hex as [->|[->|[->|Hex]]]; [..|by apply elem_of_nil in Hex];
      destruct disk; py_run; split_and!; try done; in_log.
  - intros ex.
    destruct raised as [[]|], save_raises as [[]|], disk; py_run; done.
  - intros ok.
    destruct raised as [[]|], save_raises as [[]|], disk; py_run;
      intros [= <-]; split_and!; try done; in_log.
  - intros -> ->. by destruct disk.
Qed.

Lemma count_app (kind : Effect -> bool) (log added : list Effect) :
  count kind (log ++ added) = (count kind log + count kind added)%nat.
Proof. unfold count. by rewrite List.filter_app, length_app. Qed.

(** One call of [disconnect] on a hub that has logged in. *)
Lemma disconnect_step (remove_cache : bool) (self : VivintHub) :
  has_logged_in self ->
  let result := (disconnect remove_cache self).1 in
  let after := (disconnect remove_cache self).2 in
  let absent := bool_decide (self.(cache_file) = None) in
  has_logged_in after
  /\ is_connected after = false
  /\ is_open after = false
  /\ result = (if remove_cache && absent then Raise FileNotFoundError
               else Return tt)
  /\ after.(__undo_listener)
     = (if remove_cache && absent then self.(__undo_listener) else None)
  /\ count is_teardown after.(effects)
     = (count is_teardown self.(effects)
        + if remove_cache && absent then 0
          else match self.(__undo_listener) with
               | Some _ => 1
               | None => 0
               end)%nat
  /\ count is_account_disconnect after.(effects)
     = (count is_account_disconnect self.(effects)
        + if is_connected self then 1 else 0)%nat
  /\ count is_session_close after.(effects)
     = (count is_session_close self.(effects)
        + if is_open self then 1 else 0)%nat.
Proof.
  destruct self as [listener acc flag http disk log].
  intros [[[conn] [= ->]] [[shut jar] [= ->]]].
  unfold has_logged_in, is_connected, is_open.
  destruct conn, shut, remove_cache, disk, listener; py_run;
    rewrite ?count_app; unfold count; simpl;
    split_and!; eauto; lia.
Qed.

(** C7, as the code has it.  On a hub that has logged in, a call of
    [disconnect] raises exactly when it is asked to remove the cache file
    and the file is absent, and then it raises [FileNotFoundError]; so
    calls with [remove_cache = False] never raise, however many are made.
    Across any run of calls the teardown callback is invoked at most once,
    and the account is disconnected and the session closed at most once
    each, and only if connected, respectively open, at the start. *)
Theorem disconnect_repeated (flags : list bool) (self : VivintHub) :
  has_logged_in self ->
  let results := (disconnect_all flags self).1 in
  let after := (disconnect_all flags self).2 in
  (forall remove_cache : bool,
     (disconnect remove_cache self).1
     = if remove_cache && bool_decide (self.(cache_file) = None)
       then Raise FileNotFoundError else Return tt)
  /\ Forall2 (fun (remove_cache : bool) result =>
                result = Return tt
                \/ (remove_cache = true /\ result = Raise FileNotFoundError))
             flags results
  /\ (Forall (fun remove_cache => remove_cache = false) flags ->
      Forall (fun result => result = Return tt) results)
  /\ (count is_teardown after.(effects)
      <= count is_teardown self.(effects)
         + match self.(__undo_listener) with Some _ => 1 | None => 0 end)%nat
  /\ (count is_account_disconnect after.(effects)
      <= count is_account_disconnect self.(effects)
         + if is_connected self then 1 else 0)%nat
  /\ (count is_session_close after.(effects)
      <= count is_session_close self.(effects)
         + if is_open self then 1 else 0)%nat.
Proof.
  intros Hlogged. split.
  { intros remove_cache. by apply (disconnect_step remove_cache self). }
  revert self Hlogged.
  induction flags as [|remove_cache flags IH]; intros self Hlogged.
  - cbn. split_and!; [constructor | constructor | lia..].
  - cbn [disconnect_all].
    pose proof (disconnect_step remove_cache self Hlogged) as Hstep.
    destruct (disconnect remove_cache self) as [result self1].
    cbn [fst snd] in Hstep.
    destruct Hstep as (Hlogged1 & Hconn & Hopen & Hres & Hundo & Hn1 & Hn2 & Hn3).
    specialize (IH self1 Hlogged1).
    destruct (disconnect_all flags self1) as [results self2].
    cbn [fst snd] in IH |- *.
    destruct IH as (Hall & Hquiet & Hm1 & Hm2 & Hm3).
    rewrite Hconn in Hm2. rewrite Hopen in Hm3. rewrite Hundo in Hm1.
    split_and!.
    + constructor; [|done]. rewrite Hres.
      destruct remove_cache; simpl; [|by left].
      case_bool_decide; [by right | by left].
    + intros Hflags. apply Forall_cons in Hflags as [-> Hflags].
      constructor; [by rewrite Hres | by apply Hquiet].
    + destruct (remove_cache && bool_decide (cache_file self = None)),
        (__undo_listener self); lia.
    + lia.
    + lia.
Qed.

End HubFacts.

(** ** camera.py *)

Section CameraFacts.
Import Camera.

Ltac cam_run :=
  unfold async_camera_image, stream_source, call, finally_return, try_except,
    bind, get, modify, ret, raise;
  simpl.

Lemma truthy_Some (v : option string) :
  truthy v = true <-> exists url, v = Some url /\ url <> ""%string.
Proof.
  destruct v as [url|]; simpl.
  - rewrite negb_true_iff, bool_decide_eq_false. split.
    + intros Hurl. by exists url.
    + by intros (url' & [= <-] & Hurl).
  - split; [done | by intros (url & ? & _)].
Qed.

(** A cached source is returned as it is, whatever the environment would
    answer, and nothing is called. *)
Lemma stream_source_cached (env : Environment) (self : VivintCam) :
  truthy self.(__stream_source) = true ->
  stream_source env self = (Return self.(__stream_source), self).
Proof. intros Hcached. unfold stream_source, bind, get. simpl. by rewrite Hcached. Qed.

(** [stream_source] touches neither the last image nor the name. *)
Lemma stream_source_keeps_image (env : Environment) (self : VivintCam) :
  (stream_source env self).2.(__last_image) = self.(__last_image)
  /\ (stream_source env self).2.(name) = self.(name).
Proof.
  unfold stream_source, call, bind, get, modify, ret. simpl.
  destruct (truthy (__stream_source self)); simpl; [done|].
  case_bool_decide; simpl.
  - destruct (get_direct_rtsp_url env _ _) as [direct|ex]; simpl; [|done].
    destruct (truthy direct); simpl; [done|].
    by destruct (get_rtsp_url env _ _ _).
  - by destruct (get_rtsp_url env _ _ _).
Qed.

(** C8, as the code has it.  With nothing cached: in direct mode the call
    resolves to the device's direct URL for the configured quality when
    that URL is not empty, and to the internal relay URL when the device
    has no direct URL; in external mode it resolves to the non-internal
    relay URL, in internal mode to the internal one.  A resolved URL that
    is not empty is cached: the next call returns the same string and
    calls nothing, whatever the device would answer by then. *)
Theorem stream_source_resolution (env : Environment) (self : VivintCam) :
  truthy self.(__stream_source) = false ->
  let result := (stream_source env self).1 in
  let after := (stream_source env self).2 in
  let n := length self.(calls) in
  let hd := self.(__hd_stream) in
  (self.(__rtsp_stream) = RTSP_STREAM_DIRECT ->
   forall url, env.(get_direct_rtsp_url) n hd = Return (Some url) ->
               url <> ""%string ->
               result = Return (Some url)
               /\ after.(calls) = self.(calls) ++ [GetDirectRtspUrl hd])
  /\ (self.(__rtsp_stream) = RTSP_STREAM_DIRECT ->
      forall direct relay,
        env.(get_direct_rtsp_url) n hd = Return direct ->
        truthy direct = false ->
        env.(get_rtsp_url) (S n) true hd = Return relay ->
        result = Return relay
        /\ after.(calls)
           = self.(calls) ++ [GetDirectRtspUrl hd; GetRtspUrl true hd])
  /\ (self.(__rtsp_stream) = RTSP_STREAM_EXTERNAL ->
      forall relay,
        env.(get_rtsp_url) n false hd = Return relay ->
        result = Return relay
        /\ after.(calls) = self.(calls) ++ [GetRtspUrl false hd])
  /\ (self.(__rtsp_stream) = RTSP_STREAM_INTERNAL ->
      forall relay,
        env.(get_rtsp_url) n true hd = Return relay ->
        result = Return relay
        /\ after.(calls) = self.(calls) ++ [GetRtspUrl true hd])
  /\ (forall url,
        result = Return (Some url) -> url <> ""%string ->
        forall later : Environment,
          stream_source later after = (Return (Some url), after)).
Proof.
  intros Hempty result after n hd. subst result after n hd.
  split_and!.
  - intros Hmode url Hdirect Hurl.
    unfold stream_source, call, bind, get, modify, ret. simpl.
    rewrite Hempty, Hmode. simpl. rewrite Hdirect. simpl.
    rewrite bool_decide_eq_false_2 by done. done.
  - intros Hmode direct relay Hdirect Hfalsy Hrelay.
    unfold stream_source, call, bind, get, modify, ret. simpl.
    rewrite Hempty, Hmode. simpl. rewrite Hdirect. simpl.
    rewrite Hfalsy. simpl. rewrite length_app, Nat.add_1_r. simpl.
    rewrite Hrelay. simpl. by rewrite <- app_assoc.
  - intros Hmode relay Hrelay.
    unfold stream_source, call, bind, get, modify, ret. simpl.
    rewrite Hempty, Hmode. simpl. by rewrite Hrelay.
  - intros Hmode relay Hrelay.
    unfold stream_source, call, bind, get, modify, ret. simpl.
    rewrite Hempty, Hmode. simpl. by rewrite Hrelay.
  - intros url Hresult Hurl later.
    assert (Hcached : __stream_source (stream_source env self).2 = Some url).
    { revert Hresult.
      unfold stream_source, call, bind, get, modify, ret. simpl.
      rewrite Hempty. simpl. case_bool_decide; simpl.
      - destruct (get_direct_rtsp_url env _ _) as [direct|ex]; simpl; [|done].
        destruct (truthy direct); simpl; [by intros [= ->]|].
        destruct (get_rtsp_url env _ _ _); simpl; [by intros [= ->]|done].
      - destruct (get_rtsp_url env _ _ _); simpl; [by intros [= ->]|done]. }
    rewrite stream_source_cached; rewrite Hcached; [done|].
    apply truthy_Some. eauto.
Qed.

(** A resolution that yields no URL is not cached either: what is
    stored then is as empty as before, and the next call resolves again. *)
Lemma stream_source_empty_not_cached (env : Environment) (self : VivintCam)
    (resolved : option string) :
  truthy self.(__stream_source) = false ->
  (stream_source env self).1 = Return resolved ->
  truthy resolved = false ->
  truthy (stream_source env self).2.(__stream_source) = false.
Proof.
  intros Hempty. unfold stream_source, call, bind, get, modify, ret. simpl.
  rewrite Hempty. simpl. case_bool_decide; simpl.
  - destruct (get_direct_rtsp_url env _ _) as [direct|ex]; simpl; [|done].
    destruct (truthy direct) eqn:Hdirect; simpl.
    + intros [= <-]. congruence.
    + destruct (get_rtsp_url env _ _ _); simpl; [|done]. by intros [= <-].
  - destruct (get_rtsp_url env _ _ _); simpl; [|done]. by intros [= <-].
Qed.

Lemma async_camera_image_result (env : Environment) (self : VivintCam) :
  (async_camera_image env self).1
  = Return (async_camera_image env self).2.(__last_image).
Proof. reflexivity. Qed.

Lemma camera_images_return (env : Environment) (n : nat) (self : VivintCam) :
  Forall (fun outcome => exists image, outcome = Return image)
         (camera_images env n self).1.
Proof.
  revert self. induction n as [|n IH]; intros self; cbn [camera_images].
  - constructor.
  - pose proof (async_camera_image_result env self) as Hresult.
    destruct (async_camera_image env self) as [result self1].
    specialize (IH self1).
    destruct (camera_images env n self1) as [results self2].
    constructor; [|done]. cbn [fst snd] in Hresult. eauto.
Qed.

(** C9, as the code has it.  [async_camera_image] never raises: it returns
    the image it holds afterwards.  When the source resolves and the
    capture helper returns, that is what the helper returned, an image or
    [None], now stored in place of the image held before; when resolving
    the source or the helper raises, it is the image stored before the
    call, which is kept and which is [None] on an entity that has not
    captured yet.  A run of calls never raises either. *)
Theorem async_camera_image_never_raises (env : Environment) (self : VivintCam) :
  let result := (async_camera_image env self).1 in
  let after := (async_camera_image env self).2 in
  let resolved := stream_source env self in
  result = Return after.(__last_image)
  /\ (forall input_source image,
        resolved.1 = Return input_source ->
        env.(async_get_image) (length resolved.2.(calls)) input_source
        = Return image ->
        result = Return image /\ after.(__last_image) = image)
  /\ (forall ex,
        resolved.1 = Raise ex
        \/ (exists input_source,
              resolved.1 = Return input_source
              /\ env.(async_get_image) (length resolved.2.(calls)) input_source
                 = Raise ex) ->
        result = Return self.(__last_image)
        /\ after.(__last_image) = self.(__last_image))
  /\ (forall n, Forall (fun outcome => exists image, outcome = Return image)
                       (camera_images env n self).1).
Proof.
  intros result after resolved. subst result after resolved.
  split; [apply async_camera_image_result|].
  split; [|split; [|intros n; apply camera_images_return]].
  - intros input_source image Hresolved Hcapture.
    unfold async_camera_image, finally_return, try_except, call, bind, get,
      modify, ret.
    destruct (stream_source env self) as [[source|ex] self1];
      cbn [fst snd] in *; [|done]. injection Hresolved as <-.
    by rewrite Hcapture.
  - intros ex Hfailure.
    destruct (stream_source_keeps_image env self) as [Himage _].
    unfold async_camera_image, finally_return, try_except, call, bind, get,
      modify, ret.
    destruct (stream_source env self) as [[source|ex'] self1];
      cbn [fst snd] in *.
    + destruct Hfailure as [?|(input_source & [= <-] & Hraise)]; [done|].
      rewrite Hraise. simpl. by rewrite Himage.
    + simpl. by rewrite Himage.
Qed.

End CameraFacts.

(** ** The theorems at concrete inputs *)

Section Instances.
Import Vivintpy BinarySensor Examples.

(** C1, as stated, fails: thirty seconds after a motion whose callback
    was registered one microsecond after the instant recorded, the record
    is still there and [is_on] holds; the callback is pending, due one
    microsecond later. *)
Lemma is_on_at_thirty_seconds :
  let s := run [AddedToHass; MotionDetected 1; Elapse 30000000] (init 0) in
  s.(self).(_last_motion_event) = Some 0
  /\ s.(hass_loop).(utcnow) = timedelta 30
  /\ s.(hass_loop).(pending) = [(0%nat, 30000001)]
  /\ is_on s = true.
Proof. repeat split. Qed.

Lemma is_on_within_thirty_seconds_witness :
  is_on (run (MotionDetected 250 :: (Elapse <$> [10000000%N; 19999999%N]))
             (run [AddedToHass] (init 0))) = true
  /\ is_on (run (MotionDetected 250 :: (Elapse <$> [30000001%N]))
                (run [AddedToHass] (init 0))) = false.
Proof.
  split.
  - destruct (proj2 is_on_within_thirty_seconds
                [AddedToHass] 0 250%N [10000000%N; 19999999%N] eq_refl)
      as (_ & Hbefore & _).
    apply Hbefore. vm_compute. reflexivity.
  - destruct (proj2 is_on_within_thirty_seconds
                [AddedToHass] 0 250%N [30000001%N] eq_refl)
      as (_ & _ & Hafter & _).
    apply Hafter. vm_compute. reflexivity.
Defined.

Lemma at_most_one_pending_timer_witness :
  let held := run [AddedToHass; MotionDetected 250; Elapse 5000000] (init 0) in
  (step held (MotionDetected 300)).(hass_loop).(timer_calls)
  = held.(hass_loop).(timer_calls)
    ++ [Cancel 0] ++ [CallLater 1 (5000000 + Z.of_N 300 + timedelta 30)].
Proof.
  apply (proj2 (proj2 (at_most_one_pending_timer
                         [AddedToHass; MotionDetected 250; Elapse 5000000] 0))).
  reflexivity.
Defined.

Lemma classification_first_match_witness :
  classify_device [] doorbell_camera
  = [VivintCameraBinarySensorEntity doorbell_camera ENTITY_DESCRIPTION_MOTION]
  /\ classify_device [] door_lock
     = [VivintOnlineBinarySensorEntity door_lock "node_online"].
Proof.
  destruct (classification_first_match home_systems) as (_ & Hrules & _).
  split.
  - apply (Hrules doorbell_camera); reflexivity.
  - apply (Hrules door_lock); [reflexivity | reflexivity | by eexists].
Defined.

Lemma device_class_contact_exit_entry_witness :
  device_class tilt_sensor = Some BinarySensorDeviceClass.GARAGE_DOOR
  /\ device_class door_sensor = Some BinarySensorDeviceClass.DOOR.
Proof.
  split.
  - apply (device_class_contact_exit_entry tilt_sensor);
      [reflexivity | reflexivity |].
    by exists ""%string, "_SENSOR_2GIG_345"%string.
  - apply (device_class_contact_exit_entry door_sensor);
      [reflexivity | reflexivity |].
    intros Hin. apply str_in_spec in Hin. vm_compute in Hin. discriminate.
Defined.

Lemma device_class_contact_fallthrough_witness :
  device_class interior_sensor = None
  /\ device_class panic_button = Some BinarySensorDeviceClass.SAFETY.
Proof.
  split.
  - apply (device_class_contact_fallthrough interior_sensor); [reflexivity|].
    rewrite !not_elem_of_cons. repeat split; [done..|apply not_elem_of_nil].
  - apply (device_class_contact_fallthrough panic_button).
    rewrite !not_elem_of_cons. repeat split; [done..|apply not_elem_of_nil].
Defined.

Lemma setup_without_entities_connects_nothing_witness :
  async_setup_entry "vivint" empty_host home_entry bare_systems
  = (empty_host, home_entry)
  /\ async_dispatcher_send (add_signal "vivint" "0123abcd") tilt_sensor
       (async_setup_entry "vivint" empty_host home_entry bare_systems).1
     = (async_setup_entry "vivint" empty_host home_entry bare_systems).1.
Proof.
  destruct (setup_without_entities_connects_nothing
              "vivint" empty_host home_entry bare_systems)
    as [Hempty _]; [apply lookup_empty|].
  destruct Hempty as (Hsame & _ & Hsend); [reflexivity|].
  split; [exact Hsame | apply Hsend].
Defined.

End Instances.

Section HubInstances.
Import Hub Examples.

Lemma login_outcomes_witness :
  (login connect_mfa None (init None None)).1
  = Raise VivintSkyApiMfaRequiredError
  /\ (login connect_ok None (init None None)).1 = Return true.
Proof.
  split.
  - destruct (login_outcomes connect_mfa None (init None None))
      as (Hmfa & _).
    apply Hmfa. reflexivity.
  - destruct (login_outcomes connect_ok None (init None None))
      as (_ & _ & _ & _ & _ & Hok).
    apply Hok; reflexivity.
Defined.

(** C7, as stated, fails: the second of two calls that remove the cache
    file raises, the file being gone. *)
Lemma disconnect_twice_removing_cache_raises :
  has_logged_in logged_in_hub
  /\ (disconnect_all [true; true] logged_in_hub).1
     = [Return tt; Raise FileNotFoundError].
Proof. split; [split; by eexists | reflexivity]. Qed.

Lemma disconnect_repeated_witness :
  Forall (fun result => result = Return tt)
         (disconnect_all [false; false; false] logged_in_hub).1
  /\ (count is_teardown (disconnect_all [false; false; false] logged_in_hub).2.(effects)
      <= 1)%nat.
Proof.
  assert (Hlogged : has_logged_in logged_in_hub) by (split; by eexists).
  destruct (disconnect_repeated [false; false; false] logged_in_hub Hlogged)
    as (_ & _ & Hquiet & Hteardown & _).
  split.
  - apply Hquiet. repeat constructor.
  - exact Hteardown.
Defined.

End HubInstances.

Section CameraInstances.
Import Camera Examples.

(** C8, as stated, fails: in direct mode, on a device without a direct
    URL, the call resolves to the internal relay URL; and a resolution that
    yields no URL is not cached, so that the next call resolves again. *)
Lemma stream_source_direct_without_direct_url :
  (relay_only.(get_direct_rtsp_url) 0%nat true = Return None
   /\ (stream_source relay_only (init "Doorbell" true RTSP_STREAM_DIRECT)).1
      = Return (Some "rtsp://10.0.0.2/internal"%string))
  /\ (let first := stream_source late_relay
                     (init "Doorbell" true RTSP_STREAM_EXTERNAL) in
      let second := stream_source late_relay first.2 in
      first.1 = Return None
      /\ second.1 = Return (Some "rtsp://relay.example/external"%string)
      /\ second.2.(calls) = [GetRtspUrl false true; GetRtspUrl false true]).
Proof. repeat split. Qed.

Lemma stream_source_resolution_witness :
  (stream_source direct_camera (init "Doorbell" true RTSP_STREAM_DIRECT)).1
  = Return (Some "rtsp://10.0.0.9/hd"%string).
Proof.
  destruct (stream_source_resolution direct_camera
              (init "Doorbell" true RTSP_STREAM_DIRECT))
    as (Hdirect & _); [reflexivity|].
  apply Hdirect; [reflexivity | reflexivity | discriminate].
Defined.

(** C9, as stated, fails: a capture helper that fails by returning [None]
    makes the call return [None], not the frame captured before, and the
    frame is gone: the next call, whose helper raises, returns [None]
    too. *)
Lemma capture_returning_none_forgets_image :
  (camera_images fading_camera 3
     (init "Doorbell" true RTSP_STREAM_DIRECT)).1
  = [Return (Some [Byte.xff; Byte.xd8]); Return None; Return None].
Proof. reflexivity. Qed.

Lemma async_camera_image_never_raises_witness :
  (async_camera_image relay_only (init "Doorbell" true RTSP_STREAM_DIRECT)).1
  = Return None.
Proof.
  destruct (async_camera_image_never_raises relay_only
              (init "Doorbell" true RTSP_STREAM_DIRECT))
    as (_ & _ & Hfailure & _).
  apply (Hfailure (OtherException "TimeoutError")).
  right. eexists. split; reflexivity.
Defined.

End CameraInstances.

(** ** Worked runs *)

Section Runs.
Import Vivintpy Examples.

Example collect_entities_home :
  BinarySensor.collect_entities home_systems
  = [BinarySensor.VivintBinarySensorEntity tilt_sensor;
     BinarySensor.VivintCameraBinarySensorEntity doorbell_camera
       BinarySensor.ENTITY_DESCRIPTION_MOTION;
     BinarySensor.VivintOnlineBinarySensorEntity door_lock "node_online";
     BinarySensor.VivintOnlineBinarySensorEntity thermostat "is_online"].
Proof. reflexivity. Qed.

Example collect_entities_bare : BinarySensor.collect_entities bare_systems = [].
Proof. reflexivity. Qed.

(** Motion, ten seconds, motion again, then the cool-down of the second:
    one cancellation, two registrations, and the second callback fires. *)
Example motion_twice_then_quiet :
  let s := BinarySensor.run
             [BinarySensor.AddedToHass; BinarySensor.MotionDetected 250;
              BinarySensor.Elapse 10000000; BinarySensor.MotionDetected 250;
              BinarySensor.Elapse 30000250]
             (BinarySensor.init 0) in
  s.(BinarySensor.hass_loop).(BinarySensor.timer_calls)
  = [BinarySensor.CallLater 0 30000250; BinarySensor.Cancel 0;
     BinarySensor.CallLater 1 40000250; BinarySensor.Fire 1]
  /\ s.(BinarySensor.self).(BinarySensor.written_states) = [true; true; false]
  /\ BinarySensor.is_on s = false.
Proof. repeat split. Qed.

(** The comparison in [is_on] is inclusive: with the record still there
    exactly thirty seconds after the motion, [is_on] holds. *)
Example is_on_inclusive_bound :
  BinarySensor.is_on
    {| BinarySensor.hass_loop :=
         {| BinarySensor.utcnow := 30000000; BinarySensor.pending := [];
            BinarySensor.next_handle := 1; BinarySensor.timer_calls := [] |};
       BinarySensor.self :=
         {| BinarySensor._last_motion_event := Some 0;
            BinarySensor._motion_stopped_callback := None;
            BinarySensor.listening := false;
            BinarySensor.written_states := [] |} |}
  = true.
Proof. reflexivity. Qed.

(** Between thirty seconds after the record and the instant the callback
    is due, the sensor reads off although the callback has not yet written
    the change. *)
Example off_before_the_callback :
  let s := BinarySensor.run
             [BinarySensor.AddedToHass; BinarySensor.MotionDetected 250;
              BinarySensor.Elapse 30000100]
             (BinarySensor.init 0) in
  BinarySensor.is_on s = false
  /\ s.(BinarySensor.hass_loop).(BinarySensor.pending) = [(0%nat, 30000250)]
  /\ s.(BinarySensor.self).(BinarySensor.written_states) = [true].
Proof. repeat split. Qed.

(** Removal while the cool-down runs cancels the callback and keeps the
    record: the sensor still turns off after thirty seconds, by the
    comparison alone. *)
Example removed_while_active :
  let s := BinarySensor.run
             [BinarySensor.AddedToHass; BinarySensor.MotionDetected 250;
              BinarySensor.WillRemove; BinarySensor.Elapse 30000001]
             (BinarySensor.init 0) in
  s.(BinarySensor.hass_loop).(BinarySensor.timer_calls)
  = [BinarySensor.CallLater 0 30000250; BinarySensor.Cancel 0]
  /\ s.(BinarySensor.self).(BinarySensor._last_motion_event) = Some 0
  /\ BinarySensor.is_on s = false.
Proof. repeat split. Qed.

Example login_then_disconnect_twice :
  (Hub.disconnect_all [false; false] logged_in_hub).1 = [Return tt; Return tt]
  /\ (Hub.disconnect_all [false; false] logged_in_hub).2.(Hub.effects)
     = [Hub.LogDebug "No previous session found"; Hub.AccountConnect;
        Hub.CookieJarSave; Hub.AccountDisconnect; Hub.SessionClose;
        Hub.UndoListener 0].
Proof. repeat split. Qed.

(** Three captures: the first succeeds, the next two fail and return the
    first image. *)
Example capture_then_failures :
  let env :=
    {| Camera.get_direct_rtsp_url := fun _ _ => Return (Some "rtsp://10.0.0.9/hd");
       Camera.get_rtsp_url := fun _ _ _ => Return None;
       Camera.async_get_image := fun n _ =>
         match n with
         | 1%nat => Return (Some [Byte.xff; Byte.xd8])
         | _ => Raise (OtherException "TimeoutError")
         end |} in
  (Camera.camera_images env 3
     (Camera.init "Doorbell" true Camera.RTSP_STREAM_DIRECT)).1
  = [Return (Some [Byte.xff; Byte.xd8]); Return (Some [Byte.xff; Byte.xd8]);
     Return (Some [Byte.xff; Byte.xd8])].
Proof. reflexivity. Qed.

End Runs.

(** * Further properties *)

(** ** binary_sensor.py: the device-class table read backwards *)

Section DeviceClassTable.
Import Vivintpy BinarySensor.

Lemma str_in_occurs (sub s : string) : str_in sub s = true <-> occurs_in sub s.
Proof. apply str_in_spec. Qed.

Lemma str_in_not_occurs (sub s : string) :
  str_in sub s = false <-> ~ occurs_in sub s.
Proof. rewrite <- str_in_occurs. by destruct (str_in sub s). Qed.

(** X1.  [device_class] returns [None] exactly for a contact sensor whose
    sensor type is none of the five the contact branch tests. *)
Theorem device_class_none_iff (device : VivintDevice) :
  device_class device = None <->
  device.(equipment_type) = EquipmentType.CONTACT
  /\ device.(sensor_type) ∉
       [SensorType.EXIT_ENTRY_1; SensorType.PERIMETER; SensorType.FIRE;
        SensorType.FIRE_WITH_VERIFICATION; SensorType.CARBON_MONOXIDE].
Proof.
  split.
  - unfold device_class.
    destruct (equipment_type device); simpl; try done.
    destruct (sensor_type device); simpl; try done.
    intros _. split; [done|].
    rewrite !not_elem_of_cons. repeat split; [done..|apply not_elem_of_nil].
  - intros [Het Hst]. unfold device_class. rewrite Het. simpl.
    rewrite !not_elem_of_cons in Hst. destruct Hst as (?&?&?&?&?&_).
    rewrite !bool_decide_eq_false_2; [done|done|..|done|done].
    rewrite !not_elem_of_cons. repeat split; [done|done|apply not_elem_of_nil].
Qed.

(** X2.  Each device class has exactly one way to arise, except safety,
    which has two; connectivity never arises. *)
Theorem device_class_inverse (device : VivintDevice) :
  let et := device.(equipment_type) in
  let st := device.(sensor_type) in
  let code := device.(equipment_code_name) in
  let contact := et = EquipmentType.CONTACT in
  (device_class device = Some BinarySensorDeviceClass.MOTION
   <-> et = EquipmentType.MOTION)
  /\ (device_class device = Some BinarySensorDeviceClass.COLD
      <-> et = EquipmentType.FREEZE)
  /\ (device_class device = Some BinarySensorDeviceClass.MOISTURE
      <-> et = EquipmentType.WATER)
  /\ (device_class device = Some BinarySensorDeviceClass.HEAT
      <-> et = EquipmentType.TEMPERATURE)
  /\ (device_class device = Some BinarySensorDeviceClass.GARAGE_DOOR
      <-> contact /\ st = SensorType.EXIT_ENTRY_1 /\ occurs_in "TILT" code)
  /\ (device_class device = Some BinarySensorDeviceClass.DOOR
      <-> contact /\ st = SensorType.EXIT_ENTRY_1 /\ ~ occurs_in "TILT" code)
  /\ (device_class device = Some BinarySensorDeviceClass.WINDOW
      <-> contact /\ st = SensorType.PERIMETER
          /\ ~ occurs_in "GLASS_BREAK" code)
  /\ (device_class device = Some BinarySensorDeviceClass.SMOKE
      <-> contact /\ (st = SensorType.FIRE
                      \/ st = SensorType.FIRE_WITH_VERIFICATION))
  /\ (device_class device = Some BinarySensorDeviceClass.GAS
      <-> contact /\ st = SensorType.CARBON_MONOXIDE)
  /\ (device_class device = Some BinarySensorDeviceClass.SAFETY
      <-> (contact /\ st = SensorType.PERIMETER
           /\ occurs_in "GLASS_BREAK" code)
          \/ exists value, et = EquipmentType.Other value)
  /\ device_class device <> Some BinarySensorDeviceClass.CONNECTIVITY.
Proof.
  intros et st code contact. subst et st code contact.
  rewrite <- !str_in_not_occurs, <- !str_in_occurs. unfold device_class.
  destruct (equipment_type device) as [| | | | |value]; simpl.
  2-5: split_and!; try done; split; try done; intros H;
    decompose [and or ex] H; discriminate.
  - destruct (sensor_type device); simpl;
      destruct (str_in "TILT" _), (str_in "GLASS_BREAK" _);
      split_and!; try done; split; try done; intros H;
      decompose [and or ex] H; try discriminate; try done;
      eauto 6.
  - split_and!; try done; split; try done; intros H;
      decompose [and or ex] H; try discriminate; eauto.
Qed.

End DeviceClassTable.

(** ** binary_sensor.py: what setup creates *)

Section SetupEntities.
Import Vivintpy BinarySensor.

Lemma classify_device_member (device : VivintDevice) (entity : Entity) :
  entity ∈ classify_device [] device ->
  entity_device entity = device /\ classify_device [] device = [entity].
Proof.
  unfold classify_device.
  destruct (isinstance_WirelessSensor device), (isinstance_Camera device),
    (hasattr (node_online device)), (hasattr (is_online device)); simpl;
    intros Hin; try (by apply elem_of_nil in Hin);
    apply list_elem_of_singleton in Hin as ->; done.
Qed.

Lemma classify_device_devices (device : VivintDevice) :
  entity_device <$> classify_device [] device
  = if has_rule device then [device] else [].
Proof.
  unfold classify_device, has_rule.
  by destruct (isinstance_WirelessSensor device), (isinstance_Camera device),
    (hasattr (node_online device)), (hasattr (is_online device)).
Qed.

(** X3.  The devices behind the collected entities are exactly the devices
    of the traversal that have a rule, each once and in traversal order:
    no device is visited twice and none with a rule is skipped. *)
Theorem collect_entities_devices (systems : list System) :
  entity_device <$> collect_entities systems
  = filter (fun device => has_rule device = true) (traversal systems).
Proof.
  rewrite collect_entities_traversal.
  induction (traversal systems) as [|device devices IH]; [done|].
  rewrite bind_cons, fmap_app, IH, classify_device_devices, filter_cons.
  destruct (has_rule device); by case_decide.
Qed.

(** X4.  Reading [is_on] of an online entity that setup created never
    raises: the attribute its key names exists on its device, and the key
    is [node_online] whenever the device has that attribute. *)
Theorem online_is_on_defined (systems : list System) (device : VivintDevice)
    (online_key : string) :
  VivintOnlineBinarySensorEntity device online_key ∈ collect_entities systems ->
  device ∈ traversal systems
  /\ exists flag,
       online_is_on device online_key = Return (VBool flag)
       /\ ((online_key = "node_online"%string
            /\ device.(node_online) = Some flag)
           \/ (online_key = "is_online"%string
               /\ device.(node_online) = None
               /\ device.(is_online) = Some flag)).
Proof.
  rewrite collect_entities_traversal, list_elem_of_bind.
  intros (origin & Hin & Horigin).
  destruct (classify_device_member _ _ Hin) as [Hdevice _].
  simpl in Hdevice. subst origin. split; [done|].
  revert Hin. unfold classify_device, online_is_on, getattr.
  destruct (isinstance_WirelessSensor device), (isinstance_Camera device),
    (node_online device) as [node|], (is_online device) as [online|]; simpl;
    intros Hin; try (by apply elem_of_nil in Hin);
    apply list_elem_of_singleton in Hin; simplify_eq; simpl; eauto 8.
Qed.

(** X5.  Once setup has connected the device-added closure, a device sent
    on the entry's signal that is not a wireless sensor gets no entity,
    whatever else it is: a camera or a lock discovered later gets neither
    a motion nor an online sensor. *)
Theorem device_added_only_wireless (DOMAIN : string) (hass : HomeAssistant)
    (config_entry : ConfigEntry) (systems : list System)
    (device : VivintDevice) :
  let after := (async_setup_entry DOMAIN hass config_entry systems).1 in
  let signal := add_signal DOMAIN config_entry.(entry_id) in
  hass.(dispatcher) !! signal = None ->
  collect_entities systems <> [] ->
  device.(isinstance_WirelessSensor) = false ->
  async_dispatcher_send signal device after = after.
Proof.
  intros after signal Hfresh Hentities Hother. subst after.
  unfold async_setup_entry. fold signal.
  rewrite bool_decide_eq_false_2 by done. simpl.
  unfold async_dispatcher_send. simpl.
  rewrite lookup_insert_eq, Hfresh. simpl.
  unfold async_add_sensor, async_add_entities. rewrite Hother. simpl.
  by rewrite app_nil_r.
Qed.

End SetupEntities.

(** ** Strings built by f-strings *)

Lemma length_append (a b : string) :
  String.length (a +:+ b) = (String.length a + String.length b)%nat.
Proof. induction a as [|c a IH]; simpl; [done | by rewrite IH]. Qed.

Lemma append_inv_tail (a b c : string) : a +:+ c = b +:+ c -> a = b.
Proof.
  intros Heq.
  assert (Hlen : String.length a = String.length b).
  { apply (f_equal String.length) in Heq. rewrite !length_append in Heq. lia. }
  revert b Heq Hlen. induction a as [|x a IH]; intros [|y b] Heq Hlen;
    try done.
  simpl in Heq, Hlen. injection Heq as -> Heq. f_equal. apply IH; [done|lia].
Qed.

Lemma has_char_append (c : Ascii.ascii) (a b : string) :
  has_char c (a +:+ b) = has_char c a || has_char c b.
Proof.
  induction a as [|x a IH]; simpl; [done|]. by rewrite IH, orb_assoc.
Qed.

Lemma dash_string : String dash "" = "-"%string.
Proof. reflexivity. Qed.

Lemma uint_no_dash (d : Decimal.uint) :
  has_char dash (NilEmpty.string_of_uint d) = false.
Proof. induction d; simpl; done. Qed.

Lemma str_no_dash (z : Z) : 0 <= z -> has_char dash (str z) = false.
Proof.
  intros Hz. unfold str. destruct z; simpl; [done| |lia].
  apply uint_no_dash.
Qed.

Lemma str_inj (x y : Z) : str x = str y -> x = y.
Proof.
  unfold str. intros Heq.
  apply (f_equal NilEmpty.int_of_string) in Heq.
  rewrite !NilEmpty.isi in Heq. injection Heq as Heq.
  by apply DecimalZ.to_int_inj.
Qed.

(** Two strings without a dash, each followed by a dash and a rest: the
    first dash of the whole tells where each ends. *)
Lemma split_at_dash (a b a' b' : string) :
  has_char dash a = false -> has_char dash a' = false ->
  a +:+ "-" +:+ b = a' +:+ "-" +:+ b' -> a = a' /\ b = b'.
Proof.
  revert a'. induction a as [|x a IH]; intros [|y a'] Ha Ha' Heq;
    simpl in *.
  - by injection Heq.
  - injection Heq as <- _. by rewrite bool_decide_eq_true_2 in Ha'.
  - injection Heq as -> _. by rewrite bool_decide_eq_true_2 in Ha.
  - injection Heq as -> Heq.
    apply orb_false_iff in Ha as [_ Ha]. apply orb_false_iff in Ha' as [_ Ha'].
    destruct (IH a' Ha Ha' Heq) as [-> ->]. done.
Qed.

(** ** binary_sensor.py: signals and unique ids *)

Section Scoping.
Import Vivintpy BinarySensor.

Lemma add_signal_inj (DOMAIN entry other : string) :
  add_signal DOMAIN entry = add_signal DOMAIN other -> entry = other.
Proof.
  unfold add_signal. intros Heq.
  apply (inj (String.app DOMAIN)) in Heq. simpl in Heq.
  injection Heq as Heq. exact (append_inv_tail entry other _ Heq).
Qed.

(** X6.  The device-added signal is scoped to its config entry: after
    setup for one entry, a device sent on another entry's signal reaches
    nothing that this setup connected. *)
Theorem device_added_scoped (DOMAIN : string) (hass : HomeAssistant)
    (config_entry : ConfigEntry) (systems : list System)
    (other : string) (device : VivintDevice) :
  let after := (async_setup_entry DOMAIN hass config_entry systems).1 in
  other <> config_entry.(entry_id) ->
  hass.(dispatcher) !! add_signal DOMAIN other = None ->
  async_dispatcher_send (add_signal DOMAIN other) device after = after.
Proof.
  intros after Hother Hfresh. subst after. unfold async_setup_entry.
  case_bool_decide; simpl; unfold async_dispatcher_send; simpl.
  - by rewrite Hfresh.
  - rewrite lookup_insert_ne, Hfresh; [done|].
    intros Heq. apply add_signal_inj in Heq. congruence.
Qed.

Section UniqueIds.
Variable alarm_panel_id : VivintDevice -> Z.

Lemma unique_id_inj (first second : Entity) :
  well_numbered alarm_panel_id (entity_device first) ->
  well_numbered alarm_panel_id (entity_device second) ->
  unique_id alarm_panel_id first = unique_id alarm_panel_id second ->
  alarm_panel_id (entity_device first) = alarm_panel_id (entity_device second)
  /\ (entity_device first).(id) = (entity_device second).(id).
Proof.
  intros [Hp1 Hd1] [Hp2 Hd2].
  pose proof (str_no_dash _ Hp1) as Np1. pose proof (str_no_dash _ Hp2) as Np2.
  pose proof (str_no_dash _ Hd1) as Nd1. pose proof (str_no_dash _ Hd2) as Nd2.
  destruct first as [d1|d1 ?|d1 ?], second as [d2|d2 ?|d2 ?];
    cbn [unique_id entity_device] in *; intros Heq;
    apply split_at_dash in Heq as [Hpanel Hrest]; try done;
    apply str_inj in Hpanel; (split; [done|]).
  1,2,4,5: by apply str_inj.
  - rewrite Hrest, has_char_append in Nd1. simpl in Nd1.
    by rewrite orb_true_r in Nd1.
  - rewrite Hrest, has_char_append in Nd1. simpl in Nd1.
    by rewrite orb_true_r in Nd1.
  - rewrite <- Hrest, has_char_append in Nd2. simpl in Nd2.
    by rewrite orb_true_r in Nd2.
  - rewrite <- Hrest, has_char_append in Nd2. simpl in Nd2.
    by rewrite orb_true_r in Nd2.
  - apply append_inv_tail in Hrest. by apply str_inj.
Qed.

(** X7.  When the devices of the traversal carry pairwise distinct pairs of
    a non-negative panel id and a non-negative device id, the unique ids
    of the entities that setup collects are pairwise distinct. *)
Theorem unique_ids_distinct (systems : list System) :
  (forall device, device ∈ traversal systems -> well_numbered alarm_panel_id device) ->
  NoDup ((fun device => (alarm_panel_id device, device.(id)))
           <$> traversal systems) ->
  NoDup (unique_id alarm_panel_id <$> collect_entities systems).
Proof.
  intros Hnumbered Hdistinct.
  assert (Hkey : forall d1 d2,
             d1 ∈ traversal systems -> d2 ∈ traversal systems ->
             alarm_panel_id d1 = alarm_panel_id d2 -> id d1 = id d2 -> d1 = d2).
  { clear Hnumbered. induction (traversal systems) as [|d ds IH];
      intros d1 d2 H1 H2 Hp Hi; [by apply elem_of_nil in H1|].
    rewrite fmap_cons in Hdistinct.
    apply NoDup_cons in Hdistinct as [Hfresh Hrest].
    apply elem_of_cons in H1 as [->|H1]; apply elem_of_cons in H2 as [->|H2].
    - done.
    - exfalso. apply Hfresh. apply list_elem_of_fmap. exists d2.
      by rewrite Hp, Hi.
    - exfalso. apply Hfresh. apply list_elem_of_fmap. exists d1.
      by rewrite <- Hp, <- Hi.
    - by apply IH. }
  rewrite collect_entities_traversal.
  apply NoDup_fmap_2_strong.
  - intros e1 e2 H1 H2 Heq.
    apply list_elem_of_bind in H1 as (d1 & H1 & Hd1).
    apply list_elem_of_bind in H2 as (d2 & H2 & Hd2).
    destruct (classify_device_member _ _ H1) as [Hdev1 Hone1].
    destruct (classify_device_member _ _ H2) as [Hdev2 Hone2].
    apply unique_id_inj in Heq as [Hp Hi];
      [|rewrite Hdev1; by apply Hnumbered|rewrite Hdev2; by apply Hnumbered].
    rewrite Hdev1, Hdev2 in Hp, Hi.
    assert (d1 = d2) as -> by by apply Hkey.
    rewrite Hone1 in Hone2. by injection Hone2.
  - apply NoDup_bind.
    + intros d1 d2 e _ _ H1 H2.
      destruct (classify_device_member _ _ H1) as [<- _].
      by destruct (classify_device_member _ _ H2) as [<- _].
    + intros d _. unfold classify_device.
      destruct (isinstance_WirelessSensor d), (isinstance_Camera d),
        (hasattr (node_online d)), (hasattr (is_online d));
        apply NoDup_singleton || apply NoDup_nil_2.
    + by apply NoDup_fmap_1 in Hdistinct.
Qed.

End UniqueIds.

End Scoping.

(** ** binary_sensor.py: the motion sensor over longer runs *)

Section MotionRuns.
Import BinarySensor.

Lemma run_app (first second : list Event) (s : MotionState) :
  run (first ++ second) s = run second (run first s).
Proof. apply foldl_app. Qed.

Lemma run_cons (event : Event) (events : list Event) (s : MotionState) :
  run (event :: events) s = run events (step s event).
Proof. reflexivity. Qed.

Lemma motion_callback_writes (latency : N) (s : MotionState) :
  (_motion_callback latency s).(self).(written_states)
  = s.(self).(written_states) ++ [true].
Proof.
  unfold _motion_callback, async_cancel_motion_stopped_callback.
  destruct (_motion_stopped_callback (self s)); simpl; unfold is_on; simpl;
    do 2 f_equal; apply Z.geb_le; unfold timedelta; lia.
Qed.

Lemma just_moved_after_motion (latency : N) (s : MotionState) :
  timer_invariant s -> s.(self).(listening) = true ->
  just_moved (_motion_callback latency s).
Proof.
  intros Hinv Hlistening.
  destruct (motion_callback_effect latency s Hinv)
    as (Hp & _ & Hcb & Hlast & Hnow & _ & Hlisten).
  split; [congruence|]. split; [congruence|].
  eexists _, _. split; [done|]. split; [done|]. rewrite Hnow. lia.
Qed.

Lemma is_on_just_moved (s : MotionState) : just_moved s -> is_on s = true.
Proof.
  intros (_ & Hlast & _). unfold is_on. rewrite Hlast.
  apply Z.geb_le. unfold timedelta. lia.
Qed.

Lemma burst_tail (later : list (N * N)) (s : MotionState) :
  timer_invariant s -> just_moved s ->
  Forall (fun next : N * N =>
            Z.of_N next.1 < timedelta MOTION_STOPPED_SECONDS) later ->
  let s' := run (next ← later; [Elapse next.1; MotionDetected next.2]) s in
  timer_invariant s' /\ just_moved s'
  /\ (exists added,
        s'.(hass_loop).(timer_calls) = s.(hass_loop).(timer_calls) ++ added
        /\ Forall (fun c => is_fire c = false) added)
  /\ s'.(self).(written_states)
     = s.(self).(written_states) ++ replicate (length later) true.
Proof.
  revert s. induction later as [|[gap latency] later IH];
    intros s Hinv Hmoved Hgaps; cbv zeta.
  - cbn. split_and!; [done|done| |by rewrite app_nil_r].
    exists []. by rewrite app_nil_r.
  - apply Forall_cons in Hgaps as [Hgap Hgaps]. cbn [fst] in Hgap.
    rewrite bind_cons, run_app, !run_cons. cbn [run foldl step fst snd].
    fold (run (next ← later; [Elapse next.1; MotionDetected next.2])).
    destruct Hmoved as (Hlistening & Hlast & handle & due & Hcb & Hp & Hdue).
    assert (Hearly : utcnow (hass_loop s) + Z.of_N gap < due) by lia.
    pose proof (run_until_early _ _ _ _ Hp Hearly) as Helapsed.
    pose proof (timer_invariant_run_until gap s Hinv) as Hinv1.
    remember (run_until (utcnow (hass_loop s) + Z.of_N gap) s) as s1 eqn:Hs1.
    assert (Hlistening1 : listening (self s1) = true) by by rewrite Helapsed.
    assert (Hcalls1 : timer_calls (hass_loop s1) = timer_calls (hass_loop s))
      by by rewrite Helapsed.
    assert (Hwritten1 : written_states (self s1) = written_states (self s))
      by by rewrite Helapsed.
    assert (Hcb1 : _motion_stopped_callback (self s1) = Some handle)
      by by rewrite Helapsed.
    clear Hs1 Helapsed. rewrite Hlistening1.
    pose proof (timer_invariant_motion latency s1 Hinv1) as Hinv2.
    pose proof (just_moved_after_motion latency s1 Hinv1 Hlistening1) as Hmoved2.
    destruct (motion_callback_effect latency s1 Hinv1) as (_ & Hcalls2 & _).
    pose proof (motion_callback_writes latency s1) as Hwritten2.
    destruct (IH _ Hinv2 Hmoved2 Hgaps) as (Hinv' & Hmoved' & Hcalls' & Hwritten').
    split_and!; [done|done| |].
    + destruct Hcalls' as (added & -> & Hadded). rewrite Hcalls2, Hcalls1, Hcb1.
      eexists. rewrite <- !app_assoc. split; [done|].
      simpl. repeat (constructor; [done|]). done.
    + rewrite Hwritten', Hwritten2, Hwritten1. cbn [length replicate].
      by rewrite <- app_assoc.
Qed.

(** X8.  Motion events that follow one another by less than thirty
    seconds keep the sensor on, whatever the latency of each handler:
    after each of them [is_on] holds, every state written to the host is
    on, and no cool-down callback fires in between. *)
Theorem motion_burst_stays_on (events : list Event) (t0 : Z) (latency : N)
    (later : list (N * N)) :
  let s0 := run events (init t0) in
  s0.(self).(listening) = true ->
  Forall (fun next : N * N =>
            Z.of_N next.1 < timedelta MOTION_STOPPED_SECONDS) later ->
  let s := run (burst latency later) s0 in
  is_on s = true
  /\ (exists added,
        s.(hass_loop).(timer_calls) = s0.(hass_loop).(timer_calls) ++ added
        /\ Forall (fun c => is_fire c = false) added)
  /\ s.(self).(written_states)
     = s0.(self).(written_states) ++ replicate (S (length later)) true.
Proof.
  intros s0 Hlistening Hgaps s.
  assert (Hinv : timer_invariant s0)
    by apply timer_invariant_run, timer_invariant_init.
  subst s. unfold burst. rewrite run_cons. cbn [step]. rewrite Hlistening.
  destruct (burst_tail later _ (timer_invariant_motion latency s0 Hinv)
              (just_moved_after_motion latency s0 Hinv Hlistening) Hgaps)
    as (_ & Hmoved & (added & Hcalls & Hadded) & Hwritten).
  destruct (motion_callback_effect latency s0 Hinv) as (_ & Hcalls0 & _).
  split_and!.
  - by apply is_on_just_moved.
  - rewrite Hcalls, Hcalls0. eexists. rewrite <- !app_assoc. split; [done|].
    destruct (_motion_stopped_callback (self s0)); simpl;
      repeat (constructor; [done|]); done.
  - rewrite Hwritten, motion_callback_writes. cbn [replicate].
    by rewrite <- app_assoc.
Qed.

Lemma dormant_step (s : MotionState) (event : Event) :
  dormant s ->
  (exists latency, event = MotionDetected latency)
  \/ (exists dt, event = Elapse dt) ->
  dormant (step s event)
  /\ (step s event).(hass_loop).(timer_calls) = s.(hass_loop).(timer_calls)
  /\ (step s event).(self) = s.(self).
Proof.
  intros (Hlistening & Hcb & Hp) [[latency ->]|[dt ->]]; cbn [step].
  - by rewrite Hlistening.
  - by rewrite (run_until_quiet _ _ Hp).
Qed.

(** X9.  Removing the entity cancels the pending cool-down callback, and
    from then on neither time passing nor motion on the device touches the
    entity: nothing fires, nothing is registered and no state is
    written. *)
Theorem removed_entity_untouched (events later : list Event) (t0 : Z) :
  let s0 := run events (init t0) in
  Forall (fun event => (exists latency, event = MotionDetected latency)
                       \/ exists dt, event = Elapse dt)
         later ->
  let s := run (WillRemove :: later) s0 in
  s.(hass_loop).(pending) = []
  /\ s.(hass_loop).(timer_calls)
     = s0.(hass_loop).(timer_calls)
       ++ match s0.(self).(_motion_stopped_callback) with
          | Some held => [Cancel held]
          | None => []
          end
  /\ s.(self).(written_states) = s0.(self).(written_states)
  /\ s.(self).(_motion_stopped_callback) = None.
Proof.
  intros s0 Hlater s.
  assert (Hinv : timer_invariant s0)
    by apply timer_invariant_run, timer_invariant_init.
  subst s. rewrite run_cons.
  assert (Hremoved : dormant (step s0 WillRemove)
                     /\ timer_calls (hass_loop (step s0 WillRemove))
                        = timer_calls (hass_loop s0)
                          ++ match _motion_stopped_callback (self s0) with
                             | Some held => [Cancel held]
                             | None => []
                             end
                     /\ written_states (self (step s0 WillRemove))
                        = written_states (self s0)).
  { destruct (timer_invariant_cancel s0 Hinv) as (Hp & Hcb & _).
    cbn [step]. split; [by split|].
    unfold async_cancel_motion_stopped_callback.
    destruct (_motion_stopped_callback (self s0)); simpl; [done|].
    by rewrite app_nil_r. }
  destruct Hremoved as (Hdormant & Hcalls & Hwritten).
  rewrite <- Hcalls, <- Hwritten. clear Hcalls Hwritten Hinv.
  generalize dependent (step s0 WillRemove). clear s0.
  induction later as [|event later IH]; intros s Hdormant.
  - by destruct Hdormant as (_ & ? & ?).
  - apply Forall_cons in Hlater as [Hevent Hlater].
    destruct (dormant_step s event Hdormant Hevent) as (Hdormant' & Hcalls & Hself).
    rewrite run_cons, <- Hcalls, <- Hself. by apply IH.
Qed.



End MotionRuns.

(** ** hub.py: sessions *)

Section HubSessions.
Import Hub.

(** [login] is its two halves in sequence. *)
Lemma login_halves (connect : SdkOutcome) (save_raises : option Exception)
    (self : VivintHub) :
  login connect save_raises self
  = bind (modify (set_logged_in false))
      (fun _ => bind load_previous_session
                  (connect_and_save connect save_raises)) self.
Proof. reflexivity. Qed.

(** X11.  The cookie jar survives a restart: after a [login] that
    returned, a hub created afresh over the same disk loads, as the first
    half of its own [login], exactly the cookies that were saved, and logs
    no missing session. *)
Theorem session_round_trip (connect : SdkOutcome)
    (save_raises : option Exception) (self : VivintHub)
    (undo_listener : option nat) :
  let after := (login connect save_raises self).2 in
  (exists flag, (login connect save_raises self).1 = Return flag) ->
  let restarted := init undo_listener after.(cache_file) in
  load_previous_session restarted
  = (Return connect.(cookies_after), restarted).
Proof.
  intros after [flag Hflag] restarted.
  assert (Hsaved : after.(cache_file) = Some connect.(cookies_after)).
  { subst after. revert Hflag.
    destruct connect as [raised connected cookies].
    destruct self as [listener acc logged http disk log].
    destruct raised as [[]|], save_raises as [[]|], disk;
      unfold login, save_session, sdk_call, effect, try_except, bind, get,
        modify, ret, raise; simpl; done. }
  subst restarted. rewrite Hsaved. reflexivity.
Qed.

(** X12.  The second factor completes a login: when [login] has raised the
    MFA-required error, a [verify_mfa] that the SDK accepts returns [True],
    marks the hub logged in and saves the cookies; one that the SDK rejects
    raises the SDK's exception unchanged and leaves the hub logged out and
    the cache file as it was. *)
Theorem verify_mfa_after_login (connect verify : SdkOutcome)
    (self : VivintHub) :
  connect.(raises) = Some VivintSkyApiMfaRequiredError ->
  let pending := (login connect None self).2 in
  let result := (verify_mfa verify None pending).1 in
  let after := (verify_mfa verify None pending).2 in
  (verify.(raises) = None ->
   result = Return true
   /\ after.(logged_in) = true
   /\ after.(cache_file) = Some verify.(cookies_after))
  /\ (forall ex, verify.(raises) = Some ex ->
        result = Raise ex
        /\ after.(logged_in) = false
        /\ after.(cache_file) = self.(cache_file)).
Proof.
  destruct connect as [raised connected cookies].
  destruct verify as [vraised vconnected vcookies].
  destruct self as [listener acc flag http disk log]. simpl.
  intros ->. split.
  - intros ->. by destruct disk.
  - intros ex ->. by destruct disk.
Qed.

(** X13.  On a hub that has not been through [login], [verify_mfa] and
    [disconnect] raise [AttributeError] and do nothing else: no effect
    reaches the outside and the teardown callback stays registered. *)
Theorem before_login_raises (undo_listener : option nat)
    (on_disk : option CookieJar) (verify : SdkOutcome)
    (save_raises : option Exception) (remove_cache : bool) :
  let fresh := init undo_listener on_disk in
  verify_mfa verify save_raises fresh = (Raise AttributeError, fresh)
  /\ disconnect remove_cache fresh = (Raise AttributeError, fresh).
Proof. by split. Qed.

(** X14.  A [disconnect] that raises for want of a cache file has already
    disconnected the account and closed the session, but has not reached
    the teardown callback; the next [disconnect] that does not remove the
    cache returns and invokes the callback, once. *)
Theorem disconnect_after_failed_removal (self : VivintHub) (listener : nat) :
  has_logged_in self ->
  self.(cache_file) = None ->
  self.(__undo_listener) = Some listener ->
  let first := disconnect true self in
  let second := disconnect false first.2 in
  first.1 = Raise FileNotFoundError
  /\ is_connected first.2 = false /\ is_open first.2 = false
  /\ first.2.(__undo_listener) = Some listener
  /\ count is_teardown first.2.(effects) = count is_teardown self.(effects)
  /\ second.1 = Return tt
  /\ second.2.(__undo_listener) = None
  /\ second.2.(effects) = first.2.(effects) ++ [UndoListener listener].
Proof.
  destruct self as [undo acc flag http disk log].
  intros [[[conn] [= ->]] [[shut jar] [= ->]]]. simpl. intros -> ->.
  destruct conn, shut; unfold disconnect, remove_cache_file, effect, bind,
    get, modify, ret, raise; simpl; rewrite ?count_app; unfold count; simpl;
    split_and!; try done; lia.
Qed.

(** X15.  Right after a [login] that returned, a [disconnect] that removes
    the cache returns and leaves no cache file, so that the next [login]
    starts from an empty cookie jar. *)
Theorem disconnect_removes_saved_session (connect : SdkOutcome)
    (self : VivintHub) :
  connect.(raises) = None ->
  let logged := (login connect None self).2 in
  let after := (disconnect true logged).2 in
  (disconnect true logged).1 = Return tt
  /\ after.(cache_file) = None
  /\ is_connected after = false /\ is_open after = false
  /\ (load_previous_session after).1 = Return [].
Proof.
  destruct connect as [raised connected cookies].
  destruct self as [[listener|] acc flag http [disk|] log]; simpl; intros ->;
    destruct connected; done.
Qed.

End HubSessions.

(** ** hub.py: device registry identifiers *)

Section RegistryFacts.
Import Hub.
Variable DOMAIN : string.

(** X16.  An entity of a sub-device registers under its parent: its device
    information is, field for field, that of an entity of the parent
    itself, and nothing of the sub-device enters it. *)
Theorem subdevice_shares_parent_info (device above : Device) :
  device.(is_subdevice) = true ->
  device.(parent) = Some above ->
  above.(is_subdevice) = false ->
  entity_device_info DOMAIN device = entity_device_info DOMAIN above
  /\ (forall info,
        entity_device_info DOMAIN device = Return info ->
        info.(identifiers)
        = [(DOMAIN, str above.(panel_id) +:+ "-" +:+ str above.(device_id))]).
Proof.
  intros Hsub Hparent Htop. unfold entity_device_info.
  rewrite Hsub, Hparent, Htop. split; [done|].
  unfold get_device_id at 1. rewrite Htop. intros info.
  destruct (isinstance_AlarmPanel above); [by intros [= <-]|].
  destruct (alarm_panel above) as [panel|]; [|done].
  destruct (get_device_id DOMAIN panel); [by intros [= <-]|done].
Qed.

(** X17.  Registry identifiers tell devices apart: two devices that are
    not sub-devices and whose ids are not negative get the same identifier
    only if they have the same panel id and the same device id. *)
Theorem get_device_id_injective (first second : Device) :
  top_level first -> top_level second ->
  get_device_id DOMAIN first = get_device_id DOMAIN second ->
  first.(panel_id) = second.(panel_id)
  /\ first.(device_id) = second.(device_id).
Proof.
  intros (Htop1 & Hp1 & Hd1) (Htop2 & Hp2 & Hd2).
  unfold get_device_id. rewrite Htop1, Htop2. intros [= Heq].
  apply split_at_dash in Heq as [Hpanel Hdevice];
    [|by apply str_no_dash..].
  split; by apply str_inj.
Qed.

End RegistryFacts.

(** ** camera.py: setting up the platform *)

Section CameraSetup.
Import Vivintpy Camera.
Variable type_is_VivintCamera : VivintDevice -> bool.
Variable urls : VivintDevice -> Environment.
Variable DEFAULT_HD_STREAM : bool.
Variable DEFAULT_RTSP_STREAM : RtspStream.
Variable DEFAULT_RTSP_URL_LOGGING : bool.

Lemma for_each_app {S A B} (first second : list A) (body : B -> A -> Py S B)
    (acc : B) (s : S) :
  for_each (first ++ second) body acc s
  = bind (for_each first body acc) (for_each second body) s.
Proof.
  revert acc s. induction first as [|item first IH]; intros acc s.
  - unfold bind, ret. done.
  - cbn [app for_each]. unfold bind.
    destruct (body acc item s) as [[value|ex] s']; [|done].
    rewrite IH. done.
Qed.

Lemma for_each_panels (body : list (VivintDevice * VivintCam) -> VivintDevice
                              -> Py Platform (list (VivintDevice * VivintCam)))
    (panels : list AlarmPanel) acc s :
  for_each panels (fun entities alarm_panel =>
                     for_each alarm_panel.(devices) body entities) acc s
  = for_each (alarm_panel ← panels; alarm_panel.(devices)) body acc s.
Proof.
  revert acc s. induction panels as [|panel panels IH]; intros acc s; [done|].
  rewrite bind_cons, for_each_app. cbn [for_each]. unfold bind.
  destruct (for_each (devices panel) body acc s) as [[value|ex] s']; [|done].
  apply IH.
Qed.

Lemma for_each_systems (body : list (VivintDevice * VivintCam) -> VivintDevice
                               -> Py Platform (list (VivintDevice * VivintCam)))
    (systems : list System) acc s :
  for_each systems (fun entities system =>
    for_each system.(alarm_panels) (fun entities alarm_panel =>
      for_each alarm_panel.(devices) body entities) entities) acc s
  = for_each (BinarySensor.traversal systems) body acc s.
Proof.
  revert acc s. induction systems as [|system systems IH]; intros acc s;
    [done|].
  unfold BinarySensor.traversal. rewrite bind_cons, for_each_app.
  cbn [for_each]. unfold bind. rewrite for_each_panels.
  destruct (for_each _ body acc s) as [[value|ex] s']; [|done].
  apply IH.
Qed.

Lemma log_rtsp_urls_added (device : VivintDevice) (s : Platform) :
  (log_rtsp_urls urls device s).2.(added) = s.(added).
Proof.
  unfold log_rtsp_urls, fetch, log_info, bind, modify. simpl.
  repeat match goal with
         | |- context [match ?answer with Return _ => _ | Raise _ => _ end] =>
             destruct answer; simpl
         end; done.
Qed.

Lemma log_rtsp_urls_return (device : VivintDevice) (s : Platform) :
  fetches_return urls ->
  (log_rtsp_urls urls device s).1 = Return tt
  /\ (log_rtsp_urls urls device s).2.(fetches)
     = s.(fetches) ++ six_fetches device
  /\ length (log_rtsp_urls urls device s).2.(info_lines)
     = S (length s.(info_lines)).
Proof.
  intros [Hdirect Hrelay].
  unfold log_rtsp_urls, fetch, log_info, bind, modify. simpl.
  repeat match goal with
         | |- context [get_direct_rtsp_url (urls ?d) ?n ?hd] =>
             let url := fresh "url" in
             let H := fresh "H" in
             destruct (Hdirect d n hd) as [url H]; rewrite H; simpl
         | |- context [get_rtsp_url (urls ?d) ?n ?i ?hd] =>
             let url := fresh "url" in
             let H := fresh "H" in
             destruct (Hrelay d n i hd) as [url H]; rewrite H; simpl
         end.
  rewrite <- !app_assoc, length_app. simpl. split_and!; [done|done|lia].
Qed.

Lemma setup_device_run (hd : bool) (rtsp : RtspStream) (logging : bool)
    acc (device : VivintDevice) (s : Platform) :
  setup_device type_is_VivintCamera urls hd rtsp logging acc device s
  = if type_is_VivintCamera device then
      if logging then
        match log_rtsp_urls urls device s with
        | (Return _, s1) =>
            (Return (acc ++ [(device, init device.(Vivintpy.name) hd rtsp)]), s1)
        | (Raise ex, s1) => (Raise ex, s1)
        end
      else (Return (acc ++ [(device, init device.(Vivintpy.name) hd rtsp)]), s)
    else (Return acc, s).
Proof.
  unfold setup_device, bind, ret.
  destruct (type_is_VivintCamera device), logging; try done.
Qed.

Lemma setup_loop (hd : bool) (rtsp : RtspStream) (logging : bool)
    (devices : list VivintDevice) acc (s : Platform) :
  let outcome :=
    for_each devices (setup_device type_is_VivintCamera urls hd rtsp logging)
             acc s in
  outcome.2.(added) = s.(added)
  /\ (forall entities, outcome.1 = Return entities ->
        entities = acc ++ cams_of type_is_VivintCamera hd rtsp devices)
  /\ (logging = false ->
      outcome = (Return (acc ++ cams_of type_is_VivintCamera hd rtsp devices), s))
  /\ (logging = true -> fetches_return urls ->
      outcome.1 = Return (acc ++ cams_of type_is_VivintCamera hd rtsp devices)
      /\ outcome.2.(fetches)
         = s.(fetches)
           ++ (filter (fun device => type_is_VivintCamera device = true)
                      devices ≫= six_fetches)
      /\ length outcome.2.(info_lines)
         = (length s.(info_lines)
            + length (filter (fun device => type_is_VivintCamera device = true)
                             devices))%nat).
Proof.
  unfold cams_of.
  revert acc s. induction devices as [|device devices IH]; intros acc s.
  - cbn. rewrite !app_nil_r. split_and!; try done.
    all: try (by intros entities [= <-]).
    all: intros _ _; split_and!; [done|done|lia].
  - cbn [for_each]. unfold bind.
    rewrite filter_cons, !setup_device_run.
    destruct (type_is_VivintCamera device) eqn:Hcam.
    + rewrite decide_True by done. rewrite fmap_cons.
      destruct logging.
      * pose proof (log_rtsp_urls_added device s) as Hadded.
        destruct (log_rtsp_urls urls device s) as [[[]|ex] s1] eqn:Hlog;
          cbn [fst snd] in *.
        -- specialize (IH (acc ++ [(device, init (Vivintpy.name device) hd rtsp)]) s1).
           cbv zeta in IH. rewrite <- !app_assoc in IH. cbn [app] in IH.
           destruct IH as (IH1 & IH2 & _ & IH4).
           split_and!; [congruence|done|done|].
           intros _ Hreturn. destruct (IH4 eq_refl Hreturn) as (H1 & H2 & H3).
           destruct (log_rtsp_urls_return device s Hreturn) as (_ & Hf & Hi).
           rewrite Hlog in Hf, Hi. cbn [fst snd] in Hf, Hi.
           rewrite H1, H2, H3, Hf, Hi, bind_cons. cbn [length].
           rewrite <- app_assoc. split_and!; [done|done|lia].
        -- split_and!; [done|done|done|].
           intros _ Hreturn.
           destruct (log_rtsp_urls_return device s Hreturn) as (Hr & _).
           by rewrite Hlog in Hr.
      * specialize (IH (acc ++ [(device, init (Vivintpy.name device) hd rtsp)]) s).
        cbv zeta in IH. rewrite <- !app_assoc in IH. cbn [app] in IH.
        destruct IH as (IH1 & IH2 & IH3 & _).
        split_and!; [done|done|by intros _; apply IH3|done].
    + rewrite decide_False by done. apply IH.
Qed.

Lemma camera_setup_run (options : Options) (systems : list System)
    (s : Platform) :
  async_setup_entry type_is_VivintCamera urls DEFAULT_HD_STREAM
    DEFAULT_RTSP_STREAM DEFAULT_RTSP_URL_LOGGING options systems s
  = match for_each (BinarySensor.traversal systems)
            (setup_device type_is_VivintCamera urls
               (default DEFAULT_HD_STREAM options.(CONF_HD_STREAM))
               (default DEFAULT_RTSP_STREAM options.(CONF_RTSP_STREAM))
               (default DEFAULT_RTSP_URL_LOGGING
                  options.(CONF_RTSP_URL_LOGGING)))
            [] s with
    | (Return entities, s1) =>
        (Return tt, {| fetches := s1.(fetches);
                       info_lines := s1.(info_lines);
                       added := s1.(added) ++ entities |})
    | (Raise ex, s1) => (Raise ex, s1)
    end.
Proof.
  unfold async_setup_entry, bind. rewrite for_each_systems.
  destruct (for_each _ _ [] s) as [[entities|ex] s1]; [|done].
  case_bool_decide as Hempty; unfold ret, modify; [|done].
  rewrite Hempty, app_nil_r. by destruct s1.
Qed.

(** X18.  The camera platform registers all its cameras or none: when
    setup returns, it has added one entity per device whose type is exactly
    the camera class, in traversal order and with the configured quality
    and stream mode; when it raises, which only a failing URL request made
    for logging can cause, it has added nothing.  With URL logging off it
    returns without asking any device for anything. *)
Theorem camera_setup_all_or_nothing (options : Options)
    (systems : list System) (s : Platform) :
  let outcome :=
    async_setup_entry type_is_VivintCamera urls DEFAULT_HD_STREAM
      DEFAULT_RTSP_STREAM DEFAULT_RTSP_URL_LOGGING options systems s in
  let configured :=
    cameras type_is_VivintCamera DEFAULT_HD_STREAM DEFAULT_RTSP_STREAM
      options systems in
  (forall ex, outcome.1 = Raise ex ->
     outcome.2.(added) = s.(added)
     /\ default DEFAULT_RTSP_URL_LOGGING options.(CONF_RTSP_URL_LOGGING) = true)
  /\ (outcome.1 = Return tt ->
      outcome.2.(added) = s.(added) ++ configured)
  /\ (default DEFAULT_RTSP_URL_LOGGING options.(CONF_RTSP_URL_LOGGING) = false ->
      outcome.1 = Return tt /\ outcome.2.(fetches) = s.(fetches)).
Proof.
  intros outcome configured. subst outcome configured.
  rewrite camera_setup_run. unfold cameras.
  pose proof (setup_loop
                (default DEFAULT_HD_STREAM (CONF_HD_STREAM options))
                (default DEFAULT_RTSP_STREAM (CONF_RTSP_STREAM options))
                (default DEFAULT_RTSP_URL_LOGGING (CONF_RTSP_URL_LOGGING options))
                (BinarySensor.traversal systems) [] s) as Hloop.
  cbv zeta in Hloop. unfold cams_of in Hloop.
  destruct Hloop as (Hadded & Hentities & Hquiet & _).
  destruct (for_each _ _ [] s) as [[entities|ex] s1]; cbn [fst snd] in *.
  - specialize (Hentities entities eq_refl). cbn [app] in Hentities.
    rewrite <- Hentities, Hadded. split_and!; [done|done|].
    intros Hoff. specialize (Hquiet Hoff). by injection Hquiet as _ <-.
  - split_and!; [|done|].
    + intros ? _. split; [done|].
      destruct (default DEFAULT_RTSP_URL_LOGGING (CONF_RTSP_URL_LOGGING options));
        [done|]. by specialize (Hquiet eq_refl).
    + intros Hoff. by specialize (Hquiet Hoff).
Qed.

(** X19.  With URL logging on and every URL request returning, setup
    returns after asking each camera, in traversal order, for its six URLs
    in a fixed order (direct HD, direct SD, internal HD, internal SD,
    external HD, external SD) and logging one line per camera. *)
Theorem camera_setup_logs_six_urls (options : Options)
    (systems : list System) (s : Platform) :
  default DEFAULT_RTSP_URL_LOGGING options.(CONF_RTSP_URL_LOGGING) = true ->
  fetches_return urls ->
  let outcome :=
    async_setup_entry type_is_VivintCamera urls DEFAULT_HD_STREAM
      DEFAULT_RTSP_STREAM DEFAULT_RTSP_URL_LOGGING options systems s in
  let found :=
    filter (fun device => type_is_VivintCamera device = true)
           (BinarySensor.traversal systems) in
  outcome.1 = Return tt
  /\ outcome.2.(fetches) = s.(fetches) ++ (found ≫= six_fetches)
  /\ length outcome.2.(info_lines)
     = (length s.(info_lines) + length found)%nat.
Proof.
  intros Hon Hreturn outcome found. subst outcome found.
  rewrite camera_setup_run.
  pose proof (setup_loop
                (default DEFAULT_HD_STREAM (CONF_HD_STREAM options))
                (default DEFAULT_RTSP_STREAM (CONF_RTSP_STREAM options))
                (default DEFAULT_RTSP_URL_LOGGING (CONF_RTSP_URL_LOGGING options))
                (BinarySensor.traversal systems) [] s) as Hloop.
  cbv zeta in Hloop.
  destruct Hloop as (_ & _ & _ & Hlogged).
  destruct (Hlogged Hon Hreturn) as (Hresult & Hfetches & Hlines).
  by destruct (for_each _ _ [] s) as [[entities|ex] s1].
Qed.

End CameraSetup.

(** ** camera.py: what the entity calls *)

Section CameraCalls.
Import Camera.

(** X20.  A resolution that raises stores nothing: the exception is the
    one a device call raised, no source is cached and the last image is
    untouched, so that the next call resolves again. *)
Theorem stream_source_failure_not_cached (env : Environment)
    (self : VivintCam) (ex : Exception) :
  (stream_source env self).1 = Raise ex ->
  let after := (stream_source env self).2 in
  truthy self.(__stream_source) = false
  /\ after.(__stream_source) = self.(__stream_source)
  /\ after.(__last_image) = self.(__last_image)
  /\ ((self.(__rtsp_stream) = RTSP_STREAM_DIRECT
       /\ env.(get_direct_rtsp_url) (length self.(calls)) self.(__hd_stream)
          = Raise ex)
      \/ exists n,
           env.(get_rtsp_url) n
             (bool_decide (self.(__rtsp_stream) <> RTSP_STREAM_EXTERNAL))
             self.(__hd_stream)
           = Raise ex).
Proof.
  unfold stream_source, call, bind, get, modify, ret. simpl.
  destruct (truthy (__stream_source self)); simpl; [done|].
  case_bool_decide as Hmode; simpl.
  - destruct (get_direct_rtsp_url env _ _) as [direct|ex'] eqn:Hdirect; simpl.
    + destruct (truthy direct); simpl; [done|].
      destruct (get_rtsp_url env _ _ _) as [relay|ex'] eqn:Hrelay; simpl;
        [done|].
      intros [= <-]. split_and!; try done. right. eauto.
    + intros [= <-]. split_and!; try done. by left.
  - destruct (get_rtsp_url env _ _ _) as [relay|ex'] eqn:Hrelay; simpl;
      [done|].
    intros [= <-]. split_and!; try done. right. eauto.
Qed.

(** X21.  Which device calls one [stream_source] makes: none when a source
    is cached; in direct mode the direct URL for the configured quality,
    followed by the internal relay URL only if the first came back empty;
    in the other modes the relay URL alone, internal unless the mode is
    external.  It never asks for the quality that is not configured. *)
Theorem stream_source_calls (env : Environment) (self : VivintCam) :
  let after := (stream_source env self).2 in
  let hd := self.(__hd_stream) in
  exists made,
    after.(calls) = self.(calls) ++ made
    /\ (truthy self.(__stream_source) = true -> made = [])
    /\ (truthy self.(__stream_source) = false ->
        if bool_decide (self.(__rtsp_stream) = RTSP_STREAM_DIRECT) then
          made = [GetDirectRtspUrl hd]
          \/ (made = [GetDirectRtspUrl hd; GetRtspUrl true hd]
              /\ exists direct,
                   env.(get_direct_rtsp_url) (length self.(calls)) hd
                   = Return direct
                   /\ truthy direct = false)
        else
          made = [GetRtspUrl
                    (bool_decide (self.(__rtsp_stream) <> RTSP_STREAM_EXTERNAL))
                    hd]).
Proof.
  unfold stream_source, call, bind, get, modify, ret. simpl.
  destruct (truthy (__stream_source self)); simpl.
  { exists []. by rewrite app_nil_r. }
  case_bool_decide as Hmode; simpl.
  - destruct (get_direct_rtsp_url env _ _) as [direct|ex'] eqn:Hdirect; simpl.
    + destruct (truthy direct) eqn:Hfound; simpl.
      * eexists. split_and!; [done|done|]. intros _. by left.
      * rewrite Hmode. rewrite bool_decide_eq_true_2 by done.
        destruct (get_rtsp_url env _ _ _); simpl; rewrite <- app_assoc;
          (eexists; split_and!; [done|done|]); intros _; right; eauto.
    + eexists. split_and!; [done|done|]. intros _. by left.
  - destruct (get_rtsp_url env _ _ _); simpl;
      (eexists; split_and!; [done|done|]); done.
Qed.

Lemma async_camera_image_run (env : Environment) (self : VivintCam) :
  async_camera_image env self
  = match stream_source env self with
    | (Return input_source, self1) =>
        let asked :=
          {| name := self1.(name); __hd_stream := self1.(__hd_stream);
             __rtsp_stream := self1.(__rtsp_stream);
             __stream_source := self1.(__stream_source);
             __last_image := self1.(__last_image);
             calls := self1.(calls) ++ [AsyncGetImage input_source] |} in
        match env.(async_get_image) (length self1.(calls)) input_source with
        | Return image => (Return image, set_last_image image asked)
        | Raise _ =>
            (Return self1.(__last_image),
             {| name := self1.(name); __hd_stream := self1.(__hd_stream);
                __rtsp_stream := self1.(__rtsp_stream);
                __stream_source := self1.(__stream_source);
                __last_image := self1.(__last_image);
                calls := self1.(calls)
                         ++ [AsyncGetImage input_source;
                             could_not_retrieve self1] |})
        end
    | (Raise _, self1) =>
        (Return self1.(__last_image),
         {| name := self1.(name); __hd_stream := self1.(__hd_stream);
            __rtsp_stream := self1.(__rtsp_stream);
            __stream_source := self1.(__stream_source);
            __last_image := self1.(__last_image);
            calls := self1.(calls) ++ [could_not_retrieve self1] |})
    end.
Proof.
  unfold async_camera_image, finally_return, try_except, call, bind, get,
    modify, ret, could_not_retrieve.
  destruct (stream_source env self) as [[input_source|ex] self1]; simpl;
    [|done].
  destruct (async_get_image env _ input_source); simpl; [done|].
  by rewrite <- app_assoc.
Qed.

(** X22.  What one [async_camera_image] does outside the entity: when
    resolving the source raises, the capture helper is not called and one
    debug line naming the entity is logged; otherwise the helper is called
    exactly once with the resolved source, also when that is [None], and
    the debug line follows only if the helper raises. *)
Theorem async_camera_image_calls (env : Environment) (self : VivintCam) :
  let resolved := stream_source env self in
  let after := (async_camera_image env self).2 in
  (forall ex, resolved.1 = Raise ex ->
     after.(calls) = resolved.2.(calls) ++ [could_not_retrieve self])
  /\ (forall input_source image,
        resolved.1 = Return input_source ->
        env.(async_get_image) (length resolved.2.(calls)) input_source
        = Return image ->
        after.(calls) = resolved.2.(calls) ++ [AsyncGetImage input_source])
  /\ (forall input_source ex,
        resolved.1 = Return input_source ->
        env.(async_get_image) (length resolved.2.(calls)) input_source
        = Raise ex ->
        after.(calls)
        = resolved.2.(calls)
          ++ [AsyncGetImage input_source; could_not_retrieve self]).
Proof.
  intros resolved after. subst resolved after.
  rewrite async_camera_image_run.
  destruct (stream_source_keeps_image env self) as [_ Hname].
  unfold could_not_retrieve.
  destruct (stream_source env self) as [[source|ex'] self1];
    cbn [fst snd] in *; rewrite <- Hname.
  - split_and!; [done| |].
    + intros ? image [= <-] Hcapture. by rewrite Hcapture.
    + intros ? ex [= <-] Hcapture. by rewrite Hcapture.
  - by split_and!.
Qed.

Lemma async_camera_image_cached (env : Environment) (self : VivintCam) :
  truthy self.(__stream_source) = true ->
  let after := (async_camera_image env self).2 in
  after.(__stream_source) = self.(__stream_source)
  /\ after.(name) = self.(name)
  /\ (after.(calls) = self.(calls) ++ [AsyncGetImage self.(__stream_source)]
      \/ after.(calls)
         = self.(calls)
           ++ [AsyncGetImage self.(__stream_source); could_not_retrieve self]).
Proof.
  intros Hcached. cbv zeta.
  rewrite async_camera_image_run, (stream_source_cached env self Hcached).
  cbv zeta. destruct (async_get_image env _ _); simpl; eauto.
Qed.

(** X23.  A cached source lasts: once a non-empty source is stored, no run
    of [async_camera_image] calls, whatever the captures do, asks the
    device for a URL again or changes the stored source; each call invokes
    the capture helper once, with that source. *)
Theorem cached_source_lasts (env : Environment) (n : nat) (self : VivintCam) :
  truthy self.(__stream_source) = true ->
  let after := (camera_images env n self).2 in
  after.(__stream_source) = self.(__stream_source)
  /\ exists made,
       after.(calls) = self.(calls) ++ made
       /\ Forall (fun c => is_url_fetch c = false) made
       /\ List.filter is_capture made
          = replicate n (AsyncGetImage self.(__stream_source)).
Proof.
  revert self. induction n as [|n IH]; intros self Hcached; cbv zeta.
  - cbn. split; [done|]. exists []. by rewrite app_nil_r.
  - cbn [camera_images].
    destruct (async_camera_image_cached env self Hcached)
      as (Hsource & Hname & Hcalls).
    destruct (async_camera_image env self) as [result self1].
    cbn [fst snd] in *.
    assert (Hcached1 : truthy (__stream_source self1) = true) by congruence.
    specialize (IH self1 Hcached1). cbv zeta in IH.
    destruct (camera_images env n self1) as [results self2].
    cbn [fst snd] in *. destruct IH as (Hsource2 & made & Hcalls2 & Hquiet & Hcaptures).
    split; [congruence|].
    rewrite Hsource in Hcaptures.
    destruct Hcalls as [Hcalls|Hcalls]; rewrite Hcalls2, Hcalls, <- app_assoc;
      eexists; (split; [done|]); split.
    + simpl. by constructor.
    + simpl. by rewrite Hcaptures.
    + simpl. by repeat constructor.
    + simpl. by rewrite Hcaptures.
Qed.

End CameraCalls.

(** ** The further properties at concrete inputs *)

Section FurtherInstances.
Import Vivintpy Examples.

Lemma online_is_on_defined_witness :
  BinarySensor.online_is_on door_lock "node_online" = Return (VBool true).
Proof.
  destruct (online_is_on_defined home_systems door_lock "node_online")
    as (_ & flag & Hflag & Hkey).
  - do 2 apply list_elem_of_further. apply list_elem_of_here.
  - destruct Hkey as [[_ Hnode]|[Hother _]]; [|discriminate].
    injection Hnode as <-. exact Hflag.
Defined.

Lemma device_added_only_wireless_witness :
  BinarySensor.async_dispatcher_send
    (BinarySensor.add_signal "vivint" "0123abcd") doorbell_camera
    (BinarySensor.async_setup_entry "vivint" empty_host home_entry
       home_systems).1
  = (BinarySensor.async_setup_entry "vivint" empty_host home_entry
       home_systems).1.
Proof.
  apply (device_added_only_wireless "vivint" empty_host home_entry
           home_systems doorbell_camera);
    [apply lookup_empty | discriminate | reflexivity].
Defined.

Lemma device_added_scoped_witness :
  BinarySensor.async_dispatcher_send
    (BinarySensor.add_signal "vivint" "ffff0000") tilt_sensor
    (BinarySensor.async_setup_entry "vivint" empty_host home_entry
       home_systems).1
  = (BinarySensor.async_setup_entry "vivint" empty_host home_entry
       home_systems).1.
Proof.
  apply (device_added_scoped "vivint" empty_host home_entry home_systems
           "ffff0000" tilt_sensor);
    [discriminate | apply lookup_empty].
Defined.

Lemma unique_ids_distinct_witness :
  NoDup (BinarySensor.unique_id (fun _ => 4711)
           <$> BinarySensor.collect_entities home_systems).
Proof.
  apply (unique_ids_distinct (fun _ => 4711) home_systems).
  - intros device Hin. cbn in Hin.
    repeat (apply elem_of_cons in Hin as [->|Hin]);
      [..|by apply elem_of_nil in Hin]; split; simpl; lia.
  - apply (bool_decide_unpack _). by vm_compute.
Defined.

End FurtherInstances.

Section MotionInstances.
Import BinarySensor.

Lemma motion_burst_stays_on_witness :
  is_on (run (burst 250 [(10000000%N, 300%N); (20000000%N, 0%N);
                         (29999999%N, 1200%N)])
             (run [AddedToHass] (init 0))) = true.
Proof.
  apply (motion_burst_stays_on [AddedToHass] 0 250
           [(10000000%N, 300%N); (20000000%N, 0%N); (29999999%N, 1200%N)]);
    [reflexivity|].
  repeat constructor.
Defined.

Lemma removed_entity_untouched_witness :
  (run (WillRemove :: [Elapse 40000000; MotionDetected 250])
       (run [AddedToHass; MotionDetected 250] (init 0))).(hass_loop).(pending)
  = [].
Proof.
  apply (removed_entity_untouched [AddedToHass; MotionDetected 250]
           [Elapse 40000000; MotionDetected 250] 0).
  apply Forall_cons. split; [right; by eexists|].
  apply Forall_cons. split; [left; by eexists|constructor].
Defined.


End MotionInstances.

Section HubFurtherInstances.
Import Hub Examples.

Lemma session_round_trip_witness :
  load_previous_session
    (init None (login connect_ok None (init (Some 0%nat) None)).2.(cache_file))
  = (Return [("s"%string, "7f3a"%string)],
     init None (login connect_ok None (init (Some 0%nat) None)).2.(cache_file)).
Proof.
  apply (session_round_trip connect_ok None (init (Some 0%nat) None) None).
  by exists true.
Defined.

Lemma verify_mfa_after_login_witness :
  (verify_mfa connect_ok None
     (login connect_mfa None (init None None)).2).1 = Return true.
Proof.
  destruct (verify_mfa_after_login connect_mfa connect_ok (init None None))
    as [Haccepted _]; [reflexivity|].
  apply Haccepted. reflexivity.
Defined.

Lemma disconnect_after_failed_removal_witness :
  (disconnect true unsaved_hub).1 = Raise FileNotFoundError
  /\ (disconnect false (disconnect true unsaved_hub).2).1 = Return tt.
Proof.
  destruct (disconnect_after_failed_removal unsaved_hub 0)
    as (Hfirst & _ & _ & _ & _ & Hsecond & _);
    [split; by eexists | reflexivity | reflexivity |].
  by split.
Defined.

Lemma disconnect_removes_saved_session_witness :
  (disconnect true (login connect_ok None (init (Some 0%nat) None)).2).1
  = Return tt.
Proof.
  apply (disconnect_removes_saved_session connect_ok (init (Some 0%nat) None)).
  reflexivity.
Defined.

Lemma subdevice_shares_parent_info_witness :
  entity_device_info "vivint" registry_keypad
  = entity_device_info "vivint" registry_panel.
Proof.
  apply (subdevice_shares_parent_info "vivint" registry_keypad registry_panel);
    reflexivity.
Defined.

Lemma get_device_id_injective_witness :
  get_device_id "vivint" registry_panel <> get_device_id "vivint" registry_lock.
Proof.
  intros Heq.
  destruct (get_device_id_injective "vivint" registry_panel registry_lock)
    as [_ Hdevice]; [by repeat split..|exact Heq|discriminate].
Defined.

End HubFurtherInstances.

Section CameraFurtherInstances.
Import Vivintpy Camera Examples.

Lemma camera_setup_all_or_nothing_witness :
  (async_setup_entry isinstance_Camera (fun _ => direct_camera) true
     RTSP_STREAM_DIRECT false no_options home_systems empty_platform).2.(added)
  = [(doorbell_camera, init "Doorbell" true RTSP_STREAM_DIRECT)].
Proof.
  destruct (camera_setup_all_or_nothing isinstance_Camera
              (fun _ => direct_camera) true RTSP_STREAM_DIRECT false
              no_options home_systems empty_platform) as (_ & Hadded & _).
  apply Hadded. reflexivity.
Defined.

Lemma camera_setup_logs_six_urls_witness :
  (async_setup_entry isinstance_Camera (fun _ => direct_camera) true
     RTSP_STREAM_DIRECT false logging_on home_systems empty_platform).2.(fetches)
  = six_fetches doorbell_camera.
Proof.
  destruct (camera_setup_logs_six_urls isinstance_Camera
              (fun _ => direct_camera) true RTSP_STREAM_DIRECT false
              logging_on home_systems empty_platform) as (_ & Hfetches & _).
  - reflexivity.
  - split; intros; eexists; reflexivity.
  - exact Hfetches.
Defined.

Lemma stream_source_failure_not_cached_witness :
  (stream_source unreachable (init "Doorbell" true RTSP_STREAM_DIRECT)).2
    .(__stream_source) = None.
Proof.
  destruct (stream_source_failure_not_cached unreachable
              (init "Doorbell" true RTSP_STREAM_DIRECT) ClientConnectorError)
    as (_ & Hsource & _); [reflexivity|].
  exact Hsource.
Defined.

Lemma stream_source_calls_witness :
  exists made,
    (stream_source relay_only (init "Doorbell" true RTSP_STREAM_DIRECT)).2.(calls)
    = [] ++ made.
Proof.
  destruct (stream_source_calls relay_only
              (init "Doorbell" true RTSP_STREAM_DIRECT)) as (made & Hmade & _).
  by exists made.
Defined.

Lemma async_camera_image_calls_witness :
  (async_camera_image unreachable
     (init "Doorbell" true RTSP_STREAM_DIRECT)).2.(calls)
  = [GetDirectRtspUrl true;
     LogDebug "Could not retrieve latest image for Doorbell"].
Proof.
  destruct (async_camera_image_calls unreachable
              (init "Doorbell" true RTSP_STREAM_DIRECT)) as (Hfailed & _).
  apply (Hfailed ClientConnectorError). reflexivity.
Defined.

Lemma cached_source_lasts_witness :
  (camera_images unreachable 3 resolved_cam).2.(__stream_source)
  = Some "rtsp://10.0.0.9/hd"%string.
Proof.
  destruct (cached_source_lasts unreachable 3 resolved_cam) as (Hsource & _);
    [reflexivity|].
  exact Hsource.
Defined.

End CameraFurtherInstances.

(** ** hub.py: unique ids of described entities *)

Section BaseEntity.
Import Hub.

(** X24.  The unique id of a described entity determines its parts: with
    panel and device ids that are not negative, two such ids are equal
    only for the same panel id, the same device id and the same
    description key, whatever characters the key contains. *)
Theorem base_unique_id_injective (panel device panel' device' : Z)
    (key key' : string) :
  0 <= panel -> 0 <= device -> 0 <= panel' -> 0 <= device' ->
  base_unique_id panel device key = base_unique_id panel' device' key' ->
  panel = panel' /\ device = device' /\ key = key'.
Proof.
  intros Hp Hd Hp' Hd'. unfold base_unique_id. intros Heq.
  apply split_at_dash in Heq as [Hpanel Hrest]; [|by apply str_no_dash..].
  apply split_at_dash in Hrest as [Hdevice Hkey]; [|by apply str_no_dash..].
  split_and!; [by apply str_inj|by apply str_inj|done].
Qed.

Lemma base_unique_id_injective_witness :
  base_unique_id 4711 12 "low-battery" <> base_unique_id 4711 1 "2-low-battery".
Proof.
  intros Heq.
  destruct (base_unique_id_injective 4711 12 4711 1 "low-battery"
              "2-low-battery") as (_ & Hdevice & _);
    [lia | lia | lia | lia | exact Heq | discriminate].
Defined.

End BaseEntity.
